(** * The self-healing store and the recovery-aware booking client

    A shallow embedding of [helpers/self_healing.py] (class [SelfHealing]),
    of [helpers/api_client.py] (class [BookingAPIClient]) and of
    [helpers/data_generator.py] (class [DataGenerator]), followed by the
    properties the specification states about them and by further
    properties of the code.

    Python values are embedded as the JSON values they are exchanged as;
    methods become computations in a state-and-exception monad over the
    backing file, the client object, the requests put on the wire and the
    clock.  Logging has no effect on any of these and is left out, except
    where building the log line can itself raise. *)

From Stdlib Require Import ZArith String Ascii List Bool Lia.
From stdpp Require Import base gmap sets list.
Import ListNotations.
Set Warnings "-register-all".
Local Open Scope string_scope.
Local Open Scope list_scope.
Local Open Scope Z_scope.

(** ** Values *)

(** What [json.load] and [Response.json] return.  Python's [None] is
    [JNull].  Numbers are the integers: the store and the service exchange
    no fractional number.  A [JDict] keeps its items in insertion order, as
    a Python [dict] does; its keys are strings and occur once.  A [str] is
    kept as the bytes of its UTF-8 encoding, a surrogate code point (which
    a [str] may hold on its own, [json] reads one from an escape) as the
    three bytes [ED A0..BF 80..BF] that stand for it. *)
Inductive json : Type :=
| JNull
| JBool (b : bool)
| JInt (z : Z)
| JStr (s : string)
| JList (l : list json)
| JDict (d : list (string * json)).

(** The exceptions the modelled code can meet. *)
Inductive exn : Type :=
| TypeError
| AttributeError
| KeyError
| ValueError
| UnicodeDecodeError
| JSONDecodeError
| ConnectionError
| UnicodeEncodeError.

Inductive result (A : Type) : Type :=
| Ok (a : A)
| Raise (e : exn).
Arguments Ok {A} a.
Arguments Raise {A} e.

Module Py.

(** [d.get(k)] on the items of a dict. *)
Fixpoint lookup (k : string) (d : list (string * json)) : option json :=
  match d with
  | [] => None
  | (k', v) :: d' => if String.eqb k k' then Some v else lookup k d'
  end.

(** [d[k] = v]: an existing key keeps its place, a new one goes last. *)
Fixpoint update (k : string) (v : json) (d : list (string * json))
  : list (string * json) :=
  match d with
  | [] => [(k, v)]
  | (k', v') :: d' =>
      if String.eqb k k' then (k', v) :: d' else (k', v') :: update k v d'
  end.

Definition bool_int (b : bool) : Z := if b then 1 else 0.

(** [a == b].  [True == 1] and [False == 0] hold in Python; lists compare
    item by item, dicts as maps. *)
Fixpoint eq (a b : json) {struct a} : bool :=
  match a, b with
  | JNull, JNull => true
  | JBool x, JBool y => Bool.eqb x y
  | JBool x, JInt y => (bool_int x =? y)%Z
  | JInt x, JBool y => (x =? bool_int y)%Z
  | JInt x, JInt y => (x =? y)%Z
  | JStr x, JStr y => String.eqb x y
  | JList xs, JList ys =>
      (fix items (xs ys : list json) {struct xs} : bool :=
         match xs, ys with
         | [], [] => true
         | x :: xs', y :: ys' => eq x y && items xs' ys'
         | _, _ => false
         end) xs ys
  | JDict d, JDict e =>
      (length d =? length e)%nat
      && (fix items (d : list (string * json)) {struct d} : bool :=
            match d with
            | [] => true
            | (k, v) :: d' =>
                match lookup k e with
                | Some w => eq v w && items d'
                | None => false
                end
            end) d
  | _, _ => false
  end.

(** [bool(v)], the test of [if v:] and [not v]. *)
Definition truthy (v : json) : bool :=
  match v with
  | JNull => false
  | JBool b => b
  | JInt z => negb (z =? 0)%Z
  | JStr s => negb (String.eqb s "")
  | JList l => match l with [] => false | _ => true end
  | JDict d => match d with [] => false | _ => true end
  end.

Definition substring (x s : string) : bool :=
  match String.index 0 x s with Some _ => true | None => false end.

(** A byte [80..BF], which continues a code point. *)
Definition continuation (c : ascii) : bool :=
  (128 <=? nat_of_ascii c)%nat && (nat_of_ascii c <? 192)%nat.

(** The code points of a [str], each as the bytes that encode it. *)
Fixpoint points (s : string) : list string :=
  match s with
  | EmptyString => []
  | String c s' =>
      match points s' with
      | String c' p :: ps =>
          if continuation c' then String c (String c' p) :: ps
          else String c EmptyString :: String c' p :: ps
      | ps => String c EmptyString :: ps
      end
  end.

Definition chars (s : string) : list json := map JStr (points s).

(** Whether a [str] holds a surrogate code point, [ED] followed by
    [A0..BF]. *)
Fixpoint has_surrogate (s : string) : bool :=
  match s with
  | EmptyString => false
  | String c s' =>
      match s' with
      | String c' _ =>
          ((nat_of_ascii c =? 237)%nat && (160 <=? nat_of_ascii c')%nat
           && (nat_of_ascii c' <? 192)%nat)
          || has_surrogate s'
      | EmptyString => false
      end
  end.

(** [x in c]. *)
Definition contains (x c : json) : result bool :=
  match c with
  | JList l => Ok (existsb (fun y => eq y x) l)
  | JDict d =>
      match x with
      | JStr k => Ok (match lookup k d with Some _ => true | None => false end)
      | JList _ | JDict _ => Raise TypeError
      | _ => Ok false
      end
  | JStr s =>
      match x with
      | JStr k => Ok (substring k s)
      | _ => Raise TypeError
      end
  | _ => Raise TypeError
  end.

(** [c[k]] for a string key [k]. *)
Definition getitem (c : json) (k : string) : result json :=
  match c with
  | JDict d => match lookup k d with Some v => Ok v | None => Raise KeyError end
  | _ => Raise TypeError
  end.

(** [c[k] = v] for a string key [k]. *)
Definition setitem (c : json) (k : string) (v : json) : result json :=
  match c with
  | JDict d => Ok (JDict (update k v d))
  | _ => Raise TypeError
  end.

(** [c.get(k)] and [c.get(k, default)]. *)
Definition get (c : json) (k : string) (default : json) : result json :=
  match c with
  | JDict d => Ok (match lookup k d with Some v => v | None => default end)
  | _ => Raise AttributeError
  end.

(** [c.append(x)]. *)
Definition append (c x : json) : result json :=
  match c with
  | JList l => Ok (JList (l ++ [x]))
  | _ => Raise AttributeError
  end.

Fixpoint remove_first (x : json) (l : list json) : option (list json) :=
  match l with
  | [] => None
  | y :: l' =>
      if eq y x then Some l'
      else match remove_first x l' with
           | Some r => Some (y :: r)
           | None => None
           end
  end.

(** [c.remove(x)]: the first item equal to [x] goes. *)
Definition remove (c x : json) : result json :=
  match c with
  | JList l =>
      match remove_first x l with
      | Some r => Ok (JList r)
      | None => Raise ValueError
      end
  | _ => Raise AttributeError
  end.

(** The items [for x in c] visits. *)
Definition iter (c : json) : result (list json) :=
  match c with
  | JList l => Ok l
  | JDict d => Ok (map (fun kv => JStr (fst kv)) d)
  | JStr s => Ok (chars s)
  | _ => Raise TypeError
  end.

(** [len(c)]. *)
Definition len (c : json) : result Z :=
  match c with
  | JList l => Ok (Z.of_nat (length l))
  | JDict d => Ok (Z.of_nat (length d))
  | JStr s => Ok (Z.of_nat (length (points s)))
  | _ => Raise TypeError
  end.

End Py.

(** ** The world *)

(** The backing file [test_data.json].  It is written by [json.dump] and
    read by [json.load] only, so a readable text is kept as what
    [json.load] makes of it: the value it returns, or the fact that it
    raises [JSONDecodeError]. *)
Inductive file : Type :=
| Absent                      (* [os.path.exists] is [False] *)
| Undecodable                 (* bytes that are no text: reading raises *)
| Malformed                   (* a text that is no JSON document *)
| Holds (v : json).           (* the JSON document [v] *)

(** The calls made through [self.session].  The URL is kept as its parts,
    the token-bearing headers as the token they are formatted from. *)
Inductive request : Type :=
| PostAuth (base : string) (user pass : string)
| PostBooking (base : string) (booking_data : json)
| GetBooking (base : string) (booking_id : json)
| GetBookings (base : string)
| PutBooking (base : string) (booking_id : json) (booking_data : json) (tok : json)
| PatchBooking (base : string) (booking_id : json) (update_fields : json) (tok : json)
| DeleteBooking (base : string) (booking_id : json) (tok : json)
| GetPing (base : string).

(** [requests.Response], as far as the client looks at it. *)
Record Response : Type := mkResponse {
  status_code : Z;
  content : string
}.

(** The attributes of a [BookingAPIClient].  Instants are microseconds. *)
Record client : Type := mkClient {
  base_url : string;
  username : string;
  password : string;
  token : json;
  token_expiry : option Z
}.

Record state : Type := mkState {
  self : client;              (* the client object *)
  disk : file;                (* the backing file *)
  wire : list request;        (* the calls made so far, oldest first *)
  clock : nat -> Z            (* the instants [datetime.now()] will return *)
}.

(** What lies outside the repository: the JSON reader applied to response
    bodies, the printing of instants, the booking service (whose answer, or
    transport failure after the adapter's retries, may depend on every call
    made before) and the process environment. *)
Class Env : Type := mkEnv {
  json_loads : string -> option json;
  str_datetime : Z -> string;
  service : list request -> request -> result Response;
  getenv : string -> option string
}.

(** ** Computations: state and exceptions *)

Definition M (A : Type) : Type := state -> result A * state.

#[export] Instance M_ret : MRet M := fun A a s => (Ok a, s).

#[export] Instance M_bind : MBind M := fun A B f m s =>
  match m s with
  | (Ok a, s') => f a s'
  | (Raise e, s') => (Raise e, s')
  end.

(** A pure step that may raise. *)
Definition lift {A : Type} (r : result A) : M A := fun s => (r, s).

Definition gets {A : Type} (f : state -> A) : M A := fun s => (Ok (f s), s).

Definition modify (f : state -> state) : M unit := fun s => (Ok tt, f s).

(** [try: body / except Exception: handler]; the handler runs in the state
    the body left behind. *)
Definition try_except (body : M unit) (handler : exn -> M unit) : M unit :=
  fun s =>
    match body s with
    | (Ok a, s') => (Ok a, s')
    | (Raise e, s') => handler e s'
    end.

Definition skip : M unit := mret tt.

(** [for x in l: body]. *)
Fixpoint for_each {A : Type} (l : list A) (body : A -> M unit) : M unit :=
  match l with
  | [] => skip
  | x :: l' => body x ;; for_each l' body
  end.

Definition set_self (c : client) (s : state) : state :=
  mkState c (disk s) (wire s) (clock s).

Definition set_disk (f : file) (s : state) : state :=
  mkState (self s) f (wire s) (clock s).

Definition set_token (t : json) (c : client) : client :=
  mkClient (base_url c) (username c) (password c) t (token_expiry c).

Definition set_token_expiry (e : option Z) (c : client) : client :=
  mkClient (base_url c) (username c) (password c) (token c) e.

(** The state once the clock has been read. *)
Definition ticked (s : state) : state :=
  mkState (self s) (disk s) (wire s) (fun n => clock s (S n)).

(** [datetime.now()]: the next instant of the clock. *)
Definition datetime_now : M Z := fun s => (Ok (clock s 0%nat), ticked s).

(** [timedelta(hours=1)]. *)
Definition one_hour : Z := 3600 * 1000000.

(** ** helpers/self_healing.py *)

Module SelfHealing.
Section SelfHealing.
Context `{Env}.

(** A missing file reads as the empty dict.  Of the exceptions of
    [json.load] only [JSONDecodeError] is caught; the one raised while
    decoding the bytes of the file passes through. *)
Definition _load_data : M json := fun s =>
  match disk s with
  | Absent => (Ok (JDict []), s)
  | Undecodable => (Raise UnicodeDecodeError, s)
  | Malformed => (Ok (JDict []), s)
  | Holds v => (Ok v, s)
  end.

(** Opening for writing replaces whatever the file was; the values the
    callers pass are all serializable, and [json.load] reads back what
    [json.dump] wrote.  The path is taken to be writable. *)
Definition _save_data (data : json) : M unit :=
  modify (set_disk (Holds data)).

Definition store_token (token : json) : M unit :=
  data ← _load_data;
  data ← lift (Py.setitem data "token" token);
  now ← datetime_now;
  data ← lift (Py.setitem data "token_timestamp" (JStr (str_datetime now)));
  _save_data data.

Definition get_token : M json :=
  data ← _load_data;
  lift (Py.get data "token" JNull).

Definition store_booking_id (booking_id : json) : M unit :=
  data ← _load_data;
  present ← lift (Py.contains (JStr "booking_ids") data);
  data ← (if negb present
          then lift (Py.setitem data "booking_ids" (JList []))
          else mret data);
  ids ← lift (Py.getitem data "booking_ids");
  known ← lift (Py.contains booking_id ids);
  data ← (if negb known
          then ids ← lift (Py.append ids booking_id);
               lift (Py.setitem data "booking_ids" ids)
          else mret data);
  now ← datetime_now;
  data ← lift (Py.setitem data "last_updated" (JStr (str_datetime now)));
  _save_data data.

Definition get_booking_ids : M json :=
  data ← _load_data;
  lift (Py.get data "booking_ids" (JList [])).

Definition remove_booking_id (booking_id : json) : M unit :=
  data ← _load_data;
  present ← lift (Py.contains (JStr "booking_ids") data);
  if (present : bool) then
    ids ← lift (Py.getitem data "booking_ids");
    known ← lift (Py.contains booking_id ids);
    if (known : bool) then
      ids ← lift (Py.remove ids booking_id);
      data ← lift (Py.setitem data "booking_ids" ids);
      _save_data data
    else skip
  else skip.

Definition cleanup_test_data : M unit :=
  data ← _load_data;
  _ ← lift (Py.contains (JStr "booking_ids") data);
  _save_data (JDict []).

End SelfHealing.
End SelfHealing.

(** ** helpers/api_client.py *)

Module BookingAPIClient.
Section BookingAPIClient.
Context `{Env}.

(** [os.getenv(name, default)]. *)
Definition os_getenv (name default : string) : string :=
  match getenv name with Some v => v | None => default end.

(** [arg or os.getenv(name, default)] for an optional string [arg]. *)
Definition or_getenv (arg : option string) (name default : string) : string :=
  match arg with
  | Some v => if String.eqb v "" then os_getenv name default else v
  | None => os_getenv name default
  end.

(** A call through [self.session]: it goes on the wire, and the service
    answers or the transport raises. *)
Definition send (r : request) : M Response := fun s =>
  (service (wire s) r,
   mkState (self s) (disk s) (wire s ++ [r]) (clock s)).

(** [response.json()]. *)
Definition Response_json (r : Response) : result json :=
  match json_loads (content r) with
  | Some v => Ok v
  | None => Raise JSONDecodeError
  end.

(** [s.encode()]: only a [str] has the method, and UTF-8 has no bytes for
    a surrogate code point. *)
Definition encode (v : json) : result string :=
  match v with
  | JStr s => if Py.has_surrogate s then Raise UnicodeEncodeError else Ok s
  | _ => Raise AttributeError
  end.

Definition quote : string := String (ascii_of_nat 34) EmptyString.

(** The bytes [b'{"token":"' + t + b'"}']. *)
Definition token_body (t : string) : string :=
  String.append "{"
    (String.append quote
       (String.append "token"
          (String.append quote
             (String.append ":"
                (String.append quote
                   (String.append t
                      (String.append quote "}"))))))).

Definition _attempt_self_healing : M unit :=
  stored_token ← SelfHealing.get_token;
  (if Py.truthy stored_token
   then modify (fun s => set_self (set_token stored_token (self s)) s)
   else skip);;
  stored_booking_ids ← SelfHealing.get_booking_ids;
  (if Py.truthy stored_booking_ids
   then _ ← lift (Py.len stored_booking_ids); skip
   else skip).

Definition __init__ (user pass : option string) : M unit :=
  modify (set_self
            (mkClient
               (os_getenv "BASE_URL" "https://restful-booker.herokuapp.com")
               (or_getenv user "API_USERNAME" "admin")
               (or_getenv pass "API_PASSWORD" "password123")
               JNull None));;
  _attempt_self_healing.

Definition _is_token_valid : M bool :=
  c ← gets self;
  match Py.truthy (token c), token_expiry c with
  | true, Some expiry => now ← datetime_now; mret (now <? expiry)
  | _, _ => mret false
  end.

Definition authenticate : M Response :=
  c ← gets self;
  valid ← _is_token_valid;
  if (valid : bool) then
    bytes ← lift (encode (token c));
    mret (mkResponse 200 (token_body bytes))
  else
    response ← send (PostAuth (base_url c) (username c) (password c));
    (if status_code response =? 200 then
       body ← lift (Response_json response);
       tok ← lift (Py.get body "token" JNull);
       modify (fun s => set_self (set_token tok (self s)) s);;
       if Py.truthy tok then
         now ← datetime_now;
         modify (fun s =>
                   set_self (set_token_expiry (Some (now + one_hour)) (self s)) s);;
         SelfHealing.store_token tok
       else skip
     else skip);;
    mret response.

Definition create_booking (booking_data : json) : M Response :=
  c ← gets self;
  response ← send (PostBooking (base_url c) booking_data);
  (if status_code response =? 200 then
     body ← lift (Response_json response);
     booking_id ← lift (Py.get body "bookingid" JNull);
     if Py.truthy booking_id
     then SelfHealing.store_booking_id booking_id
     else skip
   else skip);;
  mret response.

Definition get_booking (booking_id : json) : M Response :=
  c ← gets self;
  send (GetBooking (base_url c) booking_id).

Definition get_all_bookings : M Response :=
  c ← gets self;
  send (GetBookings (base_url c)).

(** [if not self._is_token_valid(): self.authenticate()]. *)
Definition ensure_token : M unit :=
  valid ← _is_token_valid;
  if (valid : bool) then skip else (_ ← authenticate; skip).

Definition update_booking (booking_id booking_data : json) : M Response :=
  ensure_token;;
  c ← gets self;
  send (PutBooking (base_url c) booking_id booking_data (token c)).

Definition partial_update_booking (booking_id update_fields : json)
  : M Response :=
  ensure_token;;
  c ← gets self;
  send (PatchBooking (base_url c) booking_id update_fields (token c)).

Definition delete_booking (booking_id : json) : M Response :=
  ensure_token;;
  c ← gets self;
  response ← send (DeleteBooking (base_url c) booking_id (token c));
  (if status_code response =? 201
   then SelfHealing.remove_booking_id booking_id
   else skip);;
  mret response.

Definition health_check : M Response :=
  c ← gets self;
  send (GetPing (base_url c)).

(** The body of the loop of [cleanup_test_data]: the deletion is tried,
    and an exception ends up in the log. *)
Definition attempt (booking_id : json) : M unit :=
  try_except (_ ← delete_booking booking_id; skip) (fun _ => skip).

Definition cleanup_test_data : M unit :=
  booking_ids ← SelfHealing.get_booking_ids;
  items ← lift (Py.iter booking_ids);
  for_each items attempt;;
  SelfHealing.cleanup_test_data.

End BookingAPIClient.
End BookingAPIClient.

(** ** helpers/data_generator.py *)

(** What the generators draw on: the instants [datetime.now()] will return
    and the numbers [random.randint] will return. *)
Record sources : Type := mkSources {
  instants : nat -> Z;
  draws : nat -> Z
}.

(** The printing of an instant under a format, [d.strftime(format)]. *)
Class Calendar : Type := mkCalendar {
  strftime : string -> Z -> string
}.

Definition Gen (A : Type) : Type := sources -> result A * sources.

#[export] Instance Gen_ret : MRet Gen := fun A a g => (Ok a, g).

#[export] Instance Gen_bind : MBind Gen := fun A B f m g =>
  match m g with
  | (Ok a, g') => f a g'
  | (Raise e, g') => (Raise e, g')
  end.

Definition gen_lift {A : Type} (r : result A) : Gen A := fun g => (r, g).

(** [datetime.now()] in a generator. *)
Definition gen_now : Gen Z := fun g =>
  (Ok (instants g 0%nat), mkSources (fun n => instants g (S n)) (draws g)).

(** [random.randint(a, b)]: the next number of the source. *)
Definition randint (a b : Z) : Gen Z := fun g =>
  (Ok (draws g 0%nat), mkSources (instants g) (fun n => draws g (S n))).

(** [timedelta(days=n)]. *)
Definition days (n : Z) : Z := n * 24 * one_hour.

Module PyMore.

(** The items of a dict without the key [k]. *)
Fixpoint without_key (k : string) (d : list (string * json))
  : list (string * json) :=
  match d with
  | [] => []
  | (k', v) :: d' =>
      if String.eqb k k' then d' else (k', v) :: without_key k d'
  end.

(** [del c[k]] for a string key [k]. *)
Definition delitem (c : json) (k : string) : result json :=
  match c with
  | JDict d =>
      match Py.lookup k d with
      | Some _ => Ok (JDict (without_key k d))
      | None => Raise KeyError
      end
  | _ => Raise TypeError
  end.

(** [s * n]. *)
Fixpoint repeat (s : string) (n : nat) : string :=
  match n with
  | O => ""
  | S n' => String.append s (repeat s n')
  end.

End PyMore.

Module DataGenerator.
Section DataGenerator.
Context `{Calendar}.

Definition generate_valid_credentials : json :=
  JDict [("username", JStr "admin"); ("password", JStr "password123")].

Definition generate_invalid_credentials : json :=
  JDict [("username", JStr "invalid"); ("password", JStr "wrongpassword")].

Definition generate_valid_booking_data : Gen json :=
  now ← gen_now;
  let checkin := now + days 7 in
  let checkout := checkin + days 3 in
  totalprice ← randint 100 1000;
  mret (JDict [("firstname", JStr "John");
               ("lastname", JStr "Doe");
               ("totalprice", JInt totalprice);
               ("depositpaid", JBool true);
               ("bookingdates",
                JDict [("checkin", JStr (strftime "%Y-%m-%d" checkin));
                       ("checkout", JStr (strftime "%Y-%m-%d" checkout))]);
               ("additionalneeds", JStr "Breakfast")]).

Definition generate_booking_with_missing_firstname : Gen json :=
  data ← generate_valid_booking_data;
  gen_lift (PyMore.delitem data "firstname").

Definition generate_booking_with_missing_lastname : Gen json :=
  data ← generate_valid_booking_data;
  gen_lift (PyMore.delitem data "lastname").

(** The two assignments go to the dict that [data] holds under
    ["bookingdates"], so [data] shows them. *)
Definition generate_booking_with_invalid_dates : Gen json :=
  data ← generate_valid_booking_data;
  dates ← gen_lift (Py.getitem data "bookingdates");
  dates ← gen_lift (Py.setitem dates "checkin" (JStr "invalid-date"));
  data ← gen_lift (Py.setitem data "bookingdates" dates);
  dates ← gen_lift (Py.getitem data "bookingdates");
  dates ← gen_lift (Py.setitem dates "checkout" (JStr "invalid-date"));
  gen_lift (Py.setitem data "bookingdates" dates).

Definition generate_booking_with_missing_dates : Gen json :=
  data ← generate_valid_booking_data;
  gen_lift (PyMore.delitem data "bookingdates").

Definition generate_empty_booking_data : json := JDict [].

Definition generate_booking_with_long_names : Gen json :=
  data ← generate_valid_booking_data;
  data ← gen_lift (Py.setitem data "firstname" (JStr (PyMore.repeat "A" 255)));
  gen_lift (Py.setitem data "lastname" (JStr (PyMore.repeat "B" 255))).

Definition generate_booking_with_max_price : Gen json :=
  data ← generate_valid_booking_data;
  gen_lift (Py.setitem data "totalprice" (JInt (2 ^ 31 - 1))).

Definition generate_booking_with_min_price : Gen json :=
  data ← generate_valid_booking_data;
  gen_lift (Py.setitem data "totalprice" (JInt 0)).

Definition generate_booking_with_special_chars : Gen json :=
  data ← generate_valid_booking_data;
  data ← gen_lift (Py.setitem data "firstname" (JStr "!$@n"));
  gen_lift (Py.setitem data "lastname" (JStr "$@rm@")).

End DataGenerator.
End DataGenerator.

(** ** Ledgers, traces and scenarios *)

(** The ledger a state's backing file stands for: an absent or malformed
    file reads as the empty one, a JSON object as itself.  Any other file
    is no ledger. *)
Definition ledger (s : state) : option (list (string * json)) :=
  match disk s with
  | Absent | Malformed => Some []
  | Holds (JDict d) => Some d
  | _ => None
  end.

(** The tracked ids of a ledger: the list under ["booking_ids"], none when
    the key is missing. *)
Definition tracked (d : list (string * json)) : option (list json) :=
  match Py.lookup "booking_ids" d with
  | None => Some []
  | Some (JList l) => Some l
  | Some _ => None
  end.

(** [l.count(x)]. *)
Fixpoint count (x : json) (l : list json) : nat :=
  match l with
  | [] => 0%nat
  | y :: l' => ((if Py.eq y x then 1 else 0) + count x l')%nat
  end.

(** The ids tracked once [x] has been stored among [l]. *)
Definition with_id (x : json) (l : list json) : list json :=
  if existsb (fun y => Py.eq y x) l then l else l ++ [x].

(** The ids tracked once [x] has been removed from [l]. *)
Definition without_id (x : json) (l : list json) : list json :=
  match Py.remove_first x l with
  | Some r => r
  | None => l
  end.

(** The calls one deletion attempt for [id] may leave on the wire: the
    DELETE alone, a re-authentication followed by the DELETE, a
    re-authentication that raised before the DELETE, or nothing when the
    cached token could not be reused. *)
Inductive attempted (id : json) : list request -> Prop :=
| attempted_delete b t : attempted id [DeleteBooking b id t]
| attempted_auth_delete b u p t :
    attempted id [PostAuth b u p; DeleteBooking b id t]
| attempted_auth_raised b u p : attempted id [PostAuth b u p]
| attempted_reuse_raised : attempted id [].

(** The calls a sweep over the given ids leaves on the wire: those of one
    attempt per id, in the order of the ids. *)
Inductive swept : list json -> list request -> Prop :=
| swept_nil : swept [] []
| swept_cons id ids w w' :
    attempted id w -> swept ids w' -> swept (id :: ids) (w ++ w').

(** A clock that does not run backwards. *)
Definition steady (k : nat -> Z) : Prop := forall n, k n <= k (S n).

(** Whether [authenticate], gone to the service, raises on the outcome of
    its call: the transport failed, or the answer of status 200 has a
    body that is no JSON object. *)
Definition auth_raises `{Env} (a : result Response) : bool :=
  match a with
  | Raise _ => true
  | Ok r =>
      (status_code r =? 200)
      && match json_loads (content r) with
         | Some (JDict _) => false
         | _ => true
         end
  end.

(** The calls one deletion attempt for [id] leaves on the wire after the
    calls [h], under a steady clock: the DELETE alone; or a
    re-authentication on whose outcome [authenticate] does not raise,
    followed by the DELETE; or a re-authentication on whose outcome it
    raises, and then no DELETE. *)
Inductive attempted_on `{Env} (h : list request) (id : json)
  : list request -> Prop :=
| attempted_on_delete b t : attempted_on h id [DeleteBooking b id t]
| attempted_on_auth_delete b u p t :
    auth_raises (service h (PostAuth b u p)) = false ->
    attempted_on h id [PostAuth b u p; DeleteBooking b id t]
| attempted_on_auth_raised b u p :
    auth_raises (service h (PostAuth b u p)) = true ->
    attempted_on h id [PostAuth b u p].

(** The calls a sweep over the given ids leaves on the wire after the
    calls [h], under a steady clock: those of one attempt per id, in the
    order of the ids, each judged after the calls before it. *)
Inductive swept_on `{Env} : list request -> list json -> list request -> Prop :=
| swept_on_nil h : swept_on h [] []
| swept_on_cons h id ids w w' :
    attempted_on h id w -> swept_on (h ++ w) ids w' ->
    swept_on h (id :: ids) (w ++ w').

(** Whether bytes are the UTF-8 encoding of a text, which is what reading
    the file in text mode asks of them (UTF-8 being the encoding in
    force). *)
Fixpoint decodable (s : string) : bool :=
  match s with
  | EmptyString => true
  | String a s1 =>
      let a := nat_of_ascii a in
      if (a <? 128)%nat then decodable s1
      else
        match s1 with
        | String b s2 =>
            let b := nat_of_ascii b in
            if ((194 <=? a) && (a <? 224))%nat
            then ((128 <=? b) && (b <? 192))%nat && decodable s2
            else
              match s2 with
              | String c s3 =>
                  let c := nat_of_ascii c in
                  if ((224 <=? a) && (a <? 240))%nat
                  then (((if (a =? 224)%nat then 160 else 128) <=? b)
                        && (b <? (if (a =? 237)%nat then 160 else 192))
                        && (128 <=? c) && (c <? 192))%nat
                       && decodable s3
                  else
                    match s3 with
                    | String d s4 =>
                        let d := nat_of_ascii d in
                        ((240 <=? a) && (a <? 245)
                         && ((if (a =? 240) then 144 else 128) <=? b)
                         && (b <? (if (a =? 244) then 144 else 192))
                         && (128 <=? c) && (c <? 192)
                         && (128 <=? d) && (d <? 192))%nat
                        && decodable s4
                    | EmptyString => false
                    end
              | EmptyString => false
              end
        | EmptyString => false
        end
  end.

(** The backing file that holds the given bytes, by what reading it
    makes of them. *)
Definition on_disk `{Env} (bytes : string) : file :=
  if decodable bytes
  then match json_loads bytes with
       | Some v => Holds v
       | None => Malformed
       end
  else Undecodable.

(** The operations of the store, as a caller issues them. *)
Inductive op : Type :=
| StoreToken (t : string)
| StoreId (i : Z)
| RemoveId (i : Z)
| Clear.

Definition run_op `{Env} (o : op) : M unit :=
  match o with
  | StoreToken t => SelfHealing.store_token (JStr t)
  | StoreId i => SelfHealing.store_booking_id (JInt i)
  | RemoveId i => SelfHealing.remove_booking_id (JInt i)
  | Clear => SelfHealing.cleanup_test_data
  end.

Definition run_ops `{Env} (ops : list op) : M unit := for_each ops run_op.

(** The specification's reading of the same operations: the set of ids
    stored and not removed since the last full clear. *)
Definition outstanding_step (ids : gset Z) (o : op) : gset Z :=
  match o with
  | StoreToken _ => ids
  | StoreId i => ids ∪ {[ i ]}
  | RemoveId i => ids ∖ {[ i ]}
  | Clear => ∅
  end.

Definition outstanding (ops : list op) : gset Z :=
  fold_left outstanding_step ops ∅.

Module Scenario.

(** A JSON object text with one member, [{"key":value}]. *)
Definition member (key value : string) : string :=
  String.append "{"
    (String.append BookingAPIClient.quote
       (String.append key
          (String.append BookingAPIClient.quote
             (String.append ":" (String.append value "}"))))).

(** A JSON string text, ["value"]. *)
Definition quoted (value : string) : string :=
  String.append BookingAPIClient.quote
    (String.append value BookingAPIClient.quote).

(** A reader that knows the bodies of the scenarios below. *)
Definition loads (text : string) : option json :=
  if String.eqb text (BookingAPIClient.token_body "abc123")
  then Some (JDict [("token", JStr "abc123")])
  else if String.eqb text (member "bookingid" "55")
  then Some (JDict [("bookingid", JInt 55)])
  else if String.eqb text (member "bookingid" "0")
  then Some (JDict [("bookingid", JInt 0)])
  else if String.eqb text (member "reason" (quoted "Bad credentials"))
  then Some (JDict [("reason", JStr "Bad credentials")])
  else None.

(** A booking service: it knows one account, creates booking 55, deletes
    booking 101 and knows no other booking. *)
Definition booker (history : list request) (r : request) : result Response :=
  match r with
  | PostAuth _ user pass =>
      if String.eqb user "admin" && String.eqb pass "password123"
      then Ok (mkResponse 200 (BookingAPIClient.token_body "abc123"))
      else Ok (mkResponse 200 (member "reason" (quoted "Bad credentials")))
  | PostBooking _ _ => Ok (mkResponse 200 (member "bookingid" "55"))
  | DeleteBooking _ (JInt 101) _ => Ok (mkResponse 201 "Created")
  | DeleteBooking _ _ _ => Ok (mkResponse 404 "Not Found")
  | GetPing _ => Ok (mkResponse 201 "Created")
  | _ => Ok (mkResponse 404 "Not Found")
  end.

(** A service that numbers its bookings from zero. *)
Definition zero_based (history : list request) (r : request) : result Response :=
  match r with
  | PostBooking _ _ => Ok (mkResponse 200 (member "bookingid" "0"))
  | _ => booker history r
  end.

Definition printed (t : Z) : string := "2024-01-01 00:00:00".

Definition base : string := "https://restful-booker.herokuapp.com".

Definition env : Env := mkEnv loads printed booker (fun _ => None).

Definition env0 : Env := mkEnv loads printed zero_based (fun _ => None).

Definition admin : client :=
  mkClient base "admin" "password123" JNull None.

Definition guest : client := mkClient base "guest" "guest" JNull None.

(** A clock that stands at noon, in microseconds since midnight. *)
Definition noon : nat -> Z := fun _ => 12 * one_hour.

(** A first run: no backing file yet. *)
Definition fresh : state := mkState admin Absent [] noon.

(** The same, for a client with an unknown account. *)
Definition stranger : state := mkState guest Absent [] noon.

(** A backing file whose bytes are no text. *)
Definition garbled : state := mkState admin Undecodable [] noon.

(** A run that left bookings 101 and 102 behind. *)
Definition leftovers : state :=
  mkState admin
    (Holds (JDict [("token", JStr "abc123");
                   ("booking_ids", JList [JInt 101; JInt 102])]))
    [] noon.

(** A client holding a token issued half an hour ago. *)
Definition member_client : client :=
  mkClient base "admin" "password123"
           (JStr "abc123") (Some (12 * one_hour + 1800000000)).

Definition signed_in : state :=
  mkState member_client (Holds (JDict [("token", JStr "abc123")])) [] noon.

(** The end of a session that still tracks bookings 101 and 102. *)
Definition teardown : state :=
  mkState member_client
    (Holds (JDict [("token", JStr "abc123");
                   ("booking_ids", JList [JInt 101; JInt 102])]))
    [] noon.

End Scenario.

Module Cases.

(** A service that refuses every authentication. *)
Definition locked (history : list request) (r : request) : result Response :=
  match r with
  | PostAuth _ _ _ => Ok (mkResponse 403 "Forbidden")
  | _ => Scenario.booker history r
  end.

(** A service that cannot be reached. *)
Definition offline (history : list request) (r : request) : result Response :=
  Raise ConnectionError.

(** A service that deletes whatever booking it is asked to. *)
Definition obliging (history : list request) (r : request) : result Response :=
  match r with
  | DeleteBooking _ _ _ => Ok (mkResponse 201 "Created")
  | _ => Scenario.booker history r
  end.

Definition env_locked : Env :=
  mkEnv Scenario.loads Scenario.printed locked (fun _ => None).

Definition env_offline : Env :=
  mkEnv Scenario.loads Scenario.printed offline (fun _ => None).

Definition env_obliging : Env :=
  mkEnv Scenario.loads Scenario.printed obliging (fun _ => None).

(** A backing file that holds a JSON array. *)
Definition listed : state :=
  mkState Scenario.admin (Holds (JList [])) [] Scenario.noon.

(** A backing file whose ["booking_ids"] is a number. *)
Definition numbered : state :=
  mkState Scenario.admin (Holds (JDict [("booking_ids", JInt 5)])) []
          Scenario.noon.

(** A client whose token ran out an hour ago. *)
Definition lapsed : state :=
  mkState (mkClient Scenario.base "admin" "password123" (JStr "abc123")
             (Some (11 * one_hour)))
          (Holds (JDict [("token", JStr "abc123")])) [] Scenario.noon.

(** A client that was handed a number for a token half an hour ago. *)
Definition numeric_token : state :=
  mkState (mkClient Scenario.base "admin" "password123" (JInt 7)
             (Some (12 * one_hour + 1800000000)))
          (Holds (JDict [("token", JInt 7)])) [] Scenario.noon.

(** A client that was handed the one code point U+D800, a surrogate, for
    a token half an hour ago. *)
Definition surrogate_token : state :=
  mkState (mkClient Scenario.base "admin" "password123"
             (JStr (String "237"%char (String "160"%char
                                         (String "128"%char EmptyString))))
             (Some (12 * one_hour + 1800000000)))
          (Holds (JDict [])) [] Scenario.noon.

(** A first run that finds the given bytes in the backing file. *)
Definition found (bytes : string) : state :=
  mkState Scenario.admin (@on_disk Scenario.env bytes) [] Scenario.noon.

(** A calendar that prints every instant alike. *)
Definition calendar : Calendar := mkCalendar (fun _ _ => "2024-01-08").

End Cases.

(** * Properties *)

(** ** Running computations *)

Lemma bind_ok {A B : Type} (m : M A) (f : A -> M B) (s s' : state) (a : A) :
  m s = (Ok a, s') -> (m ≫= f) s = f a s'.
Proof. intros E. unfold mbind, M_bind. now rewrite E. Qed.

Lemma bind_raise {A B : Type} (m : M A) (f : A -> M B) (s s' : state) (e : exn) :
  m s = (Raise e, s') -> (m ≫= f) s = (Raise e, s').
Proof. intros E. unfold mbind, M_bind. now rewrite E. Qed.

Lemma bind_bind {A B C : Type} (m : M A) (f : A -> M B) (g : B -> M C)
      (s : state) :
  ((m ≫= f) ≫= g) s = (m ≫= (fun a => f a ≫= g)) s.
Proof. unfold mbind, M_bind. now destruct (m s) as [[a|e] s']. Qed.

(** Unfolds the plumbing of the monad, leaving the methods in place. *)
Ltac run :=
  unfold mbind, M_bind, mret, M_ret, lift, gets, modify, skip,
    set_self, set_disk, datetime_now, ticked in *;
  cbn [fst snd self disk wire clock] in *.

(** ** Python dicts and lists *)

Lemma lookup_update (k k' : string) (v : json) (d : list (string * json)) :
  Py.lookup k (Py.update k' v d) =
  if String.eqb k k' then Some v else Py.lookup k d.
Proof.
  induction d as [|[k0 v0] d IH]; cbn.
  - reflexivity.
  - destruct (String.eqb_spec k' k0) as [->|Hne]; cbn.
    + now destruct (String.eqb k k0).
    + rewrite IH.
      destruct (String.eqb_spec k k0) as [->|]; [|reflexivity].
      destruct (String.eqb_spec k0 k'); congruence.
Qed.

Lemma known_ints (i : Z) (l : list Z) :
  existsb (fun y => Py.eq y (JInt i)) (map JInt l) = bool_decide (i ∈ l).
Proof.
  induction l as [|j l IH]; cbn.
  - reflexivity.
  - rewrite IH. destruct (Z.eqb_spec j i) as [->|Hne]; cbn.
    + symmetry. apply bool_decide_eq_true. apply elem_of_cons; now left.
    + apply bool_decide_ext. rewrite elem_of_cons. intuition congruence.
Qed.

Lemma count_app (x : json) (l l' : list json) :
  count x (l ++ l') = (count x l + count x l')%nat.
Proof. induction l as [|y l IH]; cbn; [reflexivity|]. rewrite IH. lia. Qed.

Lemma count_unknown (x : json) (l : list json) :
  existsb (fun y => Py.eq y x) l = false -> count x l = 0%nat.
Proof.
  induction l as [|y l IH]; cbn; [reflexivity|].
  intros [-> Hl]%orb_false_iff. now rewrite IH.
Qed.

Lemma count_known (x : json) (l : list json) :
  existsb (fun y => Py.eq y x) l = true -> (1 <= count x l)%nat.
Proof.
  induction l as [|y l IH]; cbn; [discriminate|].
  destruct (Py.eq y x); cbn; [lia|]. intros Hl. specialize (IH Hl). lia.
Qed.

(** ** The store on a ledger *)

Section Store.
Context `{Env}.

Lemma load_ledger (s : state) (d : list (string * json)) :
  ledger s = Some d -> SelfHealing._load_data s = (Ok (JDict d), s).
Proof.
  unfold ledger, SelfHealing._load_data.
  destruct (disk s) as [| | |[]]; intros [= <-]; reflexivity.
Qed.

Lemma store_token_ledger (s : state) (d : list (string * json)) (tok : json) :
  ledger s = Some d ->
  SelfHealing.store_token tok s =
  (Ok tt,
   mkState (self s)
     (Holds (JDict (Py.update "token_timestamp"
                      (JStr (str_datetime (clock s 0%nat)))
                      (Py.update "token" tok d))))
     (wire s) (clock (ticked s))).
Proof.
  intros Hd. unfold SelfHealing.store_token.
  rewrite (bind_ok _ _ _ _ _ (load_ledger s d Hd)). reflexivity.
Qed.

Lemma get_token_ledger (s : state) (d : list (string * json)) :
  ledger s = Some d ->
  SelfHealing.get_token s =
  (Ok (match Py.lookup "token" d with Some v => v | None => JNull end), s).
Proof.
  intros Hd. unfold SelfHealing.get_token.
  rewrite (bind_ok _ _ _ _ _ (load_ledger s d Hd)). reflexivity.
Qed.

Lemma get_booking_ids_ledger (s : state) (d : list (string * json))
      (l : list json) :
  ledger s = Some d -> tracked d = Some l ->
  SelfHealing.get_booking_ids s = (Ok (JList l), s).
Proof.
  intros Hd Hl. unfold SelfHealing.get_booking_ids.
  rewrite (bind_ok _ _ _ _ _ (load_ledger s d Hd)).
  unfold tracked in Hl. run. cbn.
  destruct (Py.lookup "booking_ids" d) as [[]|]; congruence.
Qed.

Lemma clear_ledger (s : state) (d : list (string * json)) :
  ledger s = Some d ->
  SelfHealing.cleanup_test_data s = (Ok tt, set_disk (Holds (JDict [])) s).
Proof.
  intros Hd. unfold SelfHealing.cleanup_test_data.
  rewrite (bind_ok _ _ _ _ _ (load_ledger s d Hd)). reflexivity.
Qed.

Lemma tracked_update (k : string) (v : json) (d : list (string * json)) :
  k <> "booking_ids" -> tracked (Py.update k v d) = tracked d.
Proof.
  intros Hk. unfold tracked. rewrite lookup_update.
  destruct (String.eqb_spec "booking_ids" k); congruence.
Qed.

Lemma tracked_set (l : list json) (d : list (string * json)) :
  tracked (Py.update "booking_ids" (JList l) d) = Some l.
Proof. unfold tracked. now rewrite lookup_update. Qed.

Lemma store_booking_id_ledger (s : state) (d : list (string * json))
      (l : list json) (x : json) :
  ledger s = Some d -> tracked d = Some l ->
  exists d',
    SelfHealing.store_booking_id x s =
    (Ok tt,
     mkState (self s) (Holds (JDict d')) (wire s) (clock (ticked s)))
    /\ tracked d' = Some (with_id x l)
    /\ Py.lookup "token" d' = Py.lookup "token" d.
Proof.
  intros Hd Hl. unfold SelfHealing.store_booking_id, with_id.
  rewrite (bind_ok _ _ _ _ _ (load_ledger s d Hd)).
  unfold tracked in Hl. run. cbn [Py.contains].
  destruct (Py.lookup "booking_ids" d) as [v|] eqn:Hk; cbn.
  - rewrite Hk. destruct v; try discriminate. injection Hl as ->.
    cbn. destruct (existsb _ l); cbn; eexists; split; try reflexivity.
    + rewrite tracked_update by discriminate. unfold tracked.
      rewrite Hk, lookup_update. now cbn.
    + rewrite tracked_update by discriminate. rewrite tracked_set.
      now rewrite !lookup_update.
  - injection Hl as <-. rewrite lookup_update. cbn.
    eexists; split; [reflexivity|].
    rewrite tracked_update by discriminate. rewrite tracked_set.
    now rewrite !lookup_update.
Qed.

Lemma remove_first_known (x : json) (l : list json) :
  existsb (fun y => Py.eq y x) l = true ->
  exists r, Py.remove_first x l = Some r.
Proof.
  induction l as [|y l IH]; cbn; [discriminate|].
  destruct (Py.eq y x); cbn; [eauto|].
  intros [r ->]%IH. eauto.
Qed.

Lemma remove_first_unknown (x : json) (l : list json) :
  existsb (fun y => Py.eq y x) l = false -> Py.remove_first x l = None.
Proof.
  induction l as [|y l IH]; cbn; [reflexivity|].
  destruct (Py.eq y x); cbn; [discriminate|].
  intros Hl. now rewrite IH.
Qed.

Lemma remove_booking_id_unknown (s : state) (d : list (string * json))
      (l : list json) (x : json) :
  ledger s = Some d -> tracked d = Some l ->
  existsb (fun y => Py.eq y x) l = false ->
  SelfHealing.remove_booking_id x s = (Ok tt, s).
Proof.
  intros Hd Hl Hx. unfold SelfHealing.remove_booking_id.
  rewrite (bind_ok _ _ _ _ _ (load_ledger s d Hd)).
  unfold tracked in Hl. run. cbn [Py.contains].
  destruct (Py.lookup "booking_ids" d) as [v|] eqn:Hk; cbn.
  - rewrite Hk. destruct v; try discriminate. injection Hl as ->.
    cbn. now rewrite Hx.
  - reflexivity.
Qed.

Lemma remove_booking_id_ledger (s : state) (d : list (string * json))
      (l : list json) (x : json) :
  ledger s = Some d -> tracked d = Some l ->
  exists s' d',
    SelfHealing.remove_booking_id x s = (Ok tt, s')
    /\ ledger s' = Some d'
    /\ tracked d' = Some (without_id x l)
    /\ Py.lookup "token" d' = Py.lookup "token" d
    /\ self s' = self s /\ wire s' = wire s /\ clock s' = clock s.
Proof.
  intros Hd Hl.
  destruct (existsb (fun y => Py.eq y x) l) eqn:Hx.
  - unfold SelfHealing.remove_booking_id, without_id.
    rewrite (bind_ok _ _ _ _ _ (load_ledger s d Hd)).
    unfold tracked in Hl. run. cbn [Py.contains].
    destruct (Py.lookup "booking_ids" d) as [v|] eqn:Hk; cbn.
    + rewrite Hk. destruct v; try discriminate. injection Hl as ->.
      cbn. rewrite Hx. destruct (remove_first_known _ _ Hx) as [r ->].
      cbn. eexists _, _; split; [reflexivity|]. cbn.
      split; [reflexivity|]. rewrite tracked_set, lookup_update. now cbn.
    + injection Hl as <-. discriminate.
  - exists s, d. rewrite (remove_booking_id_unknown s d l x Hd Hl Hx).
    unfold without_id. now rewrite (remove_first_unknown _ _ Hx).
Qed.

End Store.

(** ** The client *)

Section Client.
Context `{Env}.

Lemma token_valid_cached (s : state) (e : Z) :
  token_expiry (self s) = Some e -> Py.truthy (token (self s)) = true ->
  BookingAPIClient._is_token_valid s = (Ok (clock s 0%nat <? e), ticked s).
Proof.
  intros He Ht. unfold BookingAPIClient._is_token_valid. run.
  now rewrite He, Ht.
Qed.

Lemma token_valid_no_expiry (s : state) :
  token_expiry (self s) = None ->
  BookingAPIClient._is_token_valid s = (Ok false, s).
Proof.
  intros He. unfold BookingAPIClient._is_token_valid. run.
  rewrite He. now destruct (Py.truthy (token (self s))).
Qed.

(** The validity check never raises and touches the clock only. *)
Lemma token_valid_effect (s : state) :
  exists b s',
    BookingAPIClient._is_token_valid s = (Ok b, s')
    /\ self s' = self s /\ disk s' = disk s /\ wire s' = wire s.
Proof.
  unfold BookingAPIClient._is_token_valid. run.
  destruct (Py.truthy (token (self s))); [|eauto 10].
  destruct (token_expiry (self s)); cbn; eauto 10.
Qed.

Lemma ledger_disk (s s' : state) : disk s' = disk s -> ledger s' = ledger s.
Proof. unfold ledger. now intros ->. Qed.

(** What [authenticate] leaves behind when it goes to the service. *)
Lemma authenticate_remote (s s0 : state) :
  BookingAPIClient._is_token_valid s = (Ok false, s0) ->
  self s0 = self s -> disk s0 = disk s -> wire s0 = wire s ->
  forall d, ledger s = Some d ->
  exists r s' d',
    BookingAPIClient.authenticate s = (r, s')
    /\ wire s' = (wire s ++ [PostAuth (base_url (self s)) (username (self s))
                                      (password (self s))])%list
    /\ ledger s' = Some d' /\ tracked d' = tracked d
    /\ base_url (self s') = base_url (self s).
Proof.
  intros Hv Hself Hdisk Hwire d Hd.
  assert (forall c w k, ledger (mkState c (disk s0) w k) = Some d) as Hd0.
  { intros. rewrite <- Hd. now apply ledger_disk. }
  unfold BookingAPIClient.authenticate.
  rewrite (bind_ok _ _ s s (self s)) by reflexivity.
  rewrite (bind_ok _ _ _ _ _ Hv).
  unfold BookingAPIClient.send, BookingAPIClient.Response_json,
    datetime_now, ticked. run.
  rewrite Hwire, Hself.
  destruct (service _ _) as [r|e]; [|now eexists _, _, d].
  destruct (status_code r =? 200); [|now eexists _, _, d].
  destruct (json_loads (content r)) as [body|]; [|now eexists _, _, d].
  destruct (Py.get body "token" JNull) as [tok|]; [|now eexists _, _, d].
  destruct (Py.truthy tok); [|now eexists _, _, d].
  cbn. rewrite (store_token_ledger _ d) by apply Hd0.
  eexists _, _, _. split; [reflexivity|]. cbn.
  repeat split. now rewrite !tracked_update by discriminate.
Qed.

Lemma authenticate_effect (s : state) (d : list (string * json)) :
  ledger s = Some d ->
  exists r s' d' w,
    BookingAPIClient.authenticate s = (r, s')
    /\ wire s' = (wire s ++ w)%list
    /\ (w = [] \/ exists u p, w = [PostAuth (base_url (self s)) u p])
    /\ ledger s' = Some d' /\ tracked d' = tracked d
    /\ base_url (self s') = base_url (self s).
Proof.
  intros Hd.
  destruct (token_valid_effect s) as (b & s0 & Hv & Hself & Hdisk & Hwire).
  destruct b.
  - unfold BookingAPIClient.authenticate.
    rewrite (bind_ok _ _ s s (self s)) by reflexivity.
    rewrite (bind_ok _ _ _ _ _ Hv). run.
    assert (ledger s0 = Some d) as Hd0.
    { rewrite <- Hd. now apply ledger_disk. }
    destruct (BookingAPIClient.encode (token (self s)));
      eexists _, s0, d, []; rewrite app_nil_r, Hself; eauto 10.
  - destruct (authenticate_remote s s0 Hv Hself Hdisk Hwire d Hd)
      as (r & s' & d' & Hrun & Hw & Hd' & Hl & Hb).
    exists r, s', d'. eauto 15.
Qed.

Lemma ensure_token_effect (s : state) (d : list (string * json)) :
  ledger s = Some d ->
  exists r s' d' w,
    BookingAPIClient.ensure_token s = (r, s')
    /\ wire s' = (wire s ++ w)%list
    /\ (w = [] \/ exists u p, w = [PostAuth (base_url (self s)) u p])
    /\ ledger s' = Some d' /\ tracked d' = tracked d
    /\ base_url (self s') = base_url (self s).
Proof.
  intros Hd.
  destruct (token_valid_effect s) as (b & s0 & Hv & Hself & Hdisk & Hwire).
  assert (ledger s0 = Some d) as Hd0.
  { rewrite <- Hd. now apply ledger_disk. }
  unfold BookingAPIClient.ensure_token.
  rewrite (bind_ok _ _ _ _ _ Hv).
  destruct b.
  - exists (Ok tt), s0, d, []. rewrite app_nil_r, Hself. eauto 10.
  - destruct (authenticate_effect s0 d Hd0)
      as (r & s' & d' & w & Hrun & Hw & Hcase & Hd' & Hl & Hb).
    rewrite Hwire in Hw. rewrite Hself in Hb, Hcase.
    destruct r as [r|e].
    + rewrite (bind_ok _ _ _ _ _ Hrun). exists (Ok tt), s', d', w. eauto 10.
    + rewrite (bind_raise _ _ _ _ _ Hrun). exists (Raise e), s', d', w. eauto 10.
Qed.

(** One deletion attempt never raises, keeps the file a ledger with a
    list of ids, and sends what [attempted] describes. *)
Lemma attempt_effect (s : state) (d : list (string * json)) (l : list json)
      (id : json) :
  ledger s = Some d -> tracked d = Some l ->
  exists s' d' l' w,
    BookingAPIClient.attempt id s = (Ok tt, s')
    /\ wire s' = (wire s ++ w)%list /\ attempted id w
    /\ ledger s' = Some d' /\ tracked d' = Some l'.
Proof.
  intros Hd Hl.
  destruct (ensure_token_effect s d Hd)
    as (r & s1 & d1 & w & Hrun & Hw & Hcase & Hd1 & Hl1 & Hb).
  rewrite Hl in Hl1.
  unfold BookingAPIClient.attempt, try_except, BookingAPIClient.delete_booking.
  destruct r as [[]|e].
  - rewrite bind_bind, (bind_ok _ _ _ _ _ Hrun).
    unfold BookingAPIClient.send. run.
    assert (attempted id
              (w ++ [DeleteBooking (base_url (self s1)) id (token (self s1))]))
      as Hsent.
    { rewrite Hb. destruct Hcase as [->|(u & p & ->)]; cbn; constructor. }
    destruct (service _ _) as [r|e].
    + destruct (status_code r =? 201).
      * destruct (remove_booking_id_ledger
                    (mkState (self s1) (disk s1)
                       (wire s1 ++ [DeleteBooking (base_url (self s1)) id
                                      (token (self s1))]) (clock s1))
                    d1 l id)
          as (s2 & d2 & Hrm & Hd2 & Hl2 & _ & _ & Hw2 & _);
          [rewrite <- Hd1; now apply ledger_disk|assumption|].
        rewrite Hrm. cbn in Hw2.
        exists s2, d2, (without_id id l),
          (w ++ [DeleteBooking (base_url (self s1)) id (token (self s1))])%list.
        rewrite Hw2, Hw, <- app_assoc. eauto.
      * eexists _, d1, l, _. split; [reflexivity|]. cbn.
        rewrite Hw, <- app_assoc. split; [reflexivity|].
        split; [assumption|].
        split; [rewrite <- Hd1; now apply ledger_disk|assumption].
    + eexists _, d1, l, _. split; [reflexivity|]. cbn.
      rewrite Hw, <- app_assoc. split; [reflexivity|].
      split; [assumption|].
      split; [rewrite <- Hd1; now apply ledger_disk|assumption].
  - rewrite bind_bind, (bind_raise _ _ _ _ _ Hrun).
    exists s1, d1, l, w. repeat split; try assumption.
    destruct Hcase as [->|(u & p & ->)]; constructor.
Qed.

Lemma sweep_effect (ids : list json) :
  forall (s : state) (d : list (string * json)) (l : list json),
    ledger s = Some d -> tracked d = Some l ->
    exists s' d' l' w,
      for_each ids BookingAPIClient.attempt s = (Ok tt, s')
      /\ wire s' = (wire s ++ w)%list /\ swept ids w
      /\ ledger s' = Some d' /\ tracked d' = Some l'.
Proof.
  induction ids as [|id ids IH]; intros s d l Hd Hl.
  - exists s, d, l, []. rewrite app_nil_r. repeat split; try assumption.
    constructor.
  - destruct (attempt_effect s d l id Hd Hl)
      as (s1 & d1 & l1 & w1 & Hrun & Hw1 & Hat & Hd1 & Hl1).
    destruct (IH s1 d1 l1 Hd1 Hl1)
      as (s2 & d2 & l2 & w2 & Hrest & Hw2 & Hsw & Hd2 & Hl2).
    exists s2, d2, l2, (w1 ++ w2)%list.
    cbn [for_each]. rewrite (bind_ok _ _ _ _ _ Hrun), Hrest.
    rewrite Hw2, Hw1, <- app_assoc. repeat split; try assumption.
    now constructor.
Qed.

(** With a token that stays valid the attempt is the DELETE alone. *)
Lemma attempt_signed_in (s : state) (d : list (string * json))
      (l : list json) (id : json) (e : Z) :
  ledger s = Some d -> tracked d = Some l ->
  Py.truthy (token (self s)) = true ->
  token_expiry (self s) = Some e -> clock s 0%nat < e ->
  exists s' d' l',
    BookingAPIClient.attempt id s = (Ok tt, s')
    /\ wire s' = (wire s ++ [DeleteBooking (base_url (self s)) id
                                (token (self s))])%list
    /\ self s' = self s /\ clock s' = clock (ticked s)
    /\ ledger s' = Some d' /\ tracked d' = Some l'.
Proof.
  intros Hd Hl Ht He Hnow.
  assert (BookingAPIClient.ensure_token s = (Ok tt, ticked s)) as Hrun.
  { unfold BookingAPIClient.ensure_token.
    rewrite (bind_ok _ _ _ _ _ (token_valid_cached s e He Ht)).
    apply Z.ltb_lt in Hnow. now rewrite Hnow. }
  unfold BookingAPIClient.attempt, try_except, BookingAPIClient.delete_booking.
  rewrite bind_bind, (bind_ok _ _ _ _ _ Hrun).
  unfold BookingAPIClient.send. run.
  destruct (service _ _) as [r|x].
  - destruct (status_code r =? 201).
    + destruct (remove_booking_id_ledger
                  (mkState (self s) (disk s)
                     (wire s ++ [DeleteBooking (base_url (self s)) id
                                   (token (self s))])
                     (fun n => clock s (S n)))
                  d l id)
        as (s2 & d2 & Hrm & Hd2 & Hl2 & _ & Hs2 & Hw2 & Hc2);
        [assumption..|].
      rewrite Hrm. exists s2, d2, (without_id id l). eauto 10.
    + eexists _, d, l. split; [reflexivity|]. now cbn.
  - eexists _, d, l. split; [reflexivity|]. now cbn.
Qed.

Lemma sweep_signed_in (ids : list json) :
  forall (s : state) (d : list (string * json)) (l : list json) (e : Z),
    ledger s = Some d -> tracked d = Some l ->
    Py.truthy (token (self s)) = true ->
    token_expiry (self s) = Some e -> (forall n, clock s n < e) ->
    exists s',
      for_each ids BookingAPIClient.attempt s = (Ok tt, s')
      /\ wire s' =
         (wire s ++ map (fun id => DeleteBooking (base_url (self s)) id
                                     (token (self s))) ids)%list.
Proof.
  induction ids as [|id ids IH]; intros s d l e Hd Hl Ht He Hnow.
  - exists s. now rewrite app_nil_r.
  - destruct (attempt_signed_in s d l id e Hd Hl Ht He (Hnow 0%nat))
      as (s1 & d1 & l1 & Hrun & Hw1 & Hs1 & Hc1 & Hd1 & Hl1).
    destruct (IH s1 d1 l1 e Hd1 Hl1) as (s2 & Hrest & Hw2).
    + now rewrite Hs1.
    + now rewrite Hs1.
    + intros n. rewrite Hc1. apply Hnow.
    + exists s2. cbn [for_each map].
      rewrite (bind_ok _ _ _ _ _ Hrun), Hrest.
      now rewrite Hw2, Hw1, Hs1, <- app_assoc.
Qed.

Lemma steady_later (k : nat -> Z) : steady k -> steady (fun n => k (S n)).
Proof. intros Hk n. apply Hk. Qed.

(** Under a steady clock a token found stale is still stale when
    [authenticate] looks again. *)
Lemma stale_stays_stale (s : state) (e : Z) :
  Py.truthy (token (self s)) = true -> token_expiry (self s) = Some e ->
  steady (clock s) -> (clock s 0%nat <? e) = false ->
  BookingAPIClient._is_token_valid (ticked s) = (Ok false, ticked (ticked s)).
Proof.
  intros Ht He Hk Hnow.
  rewrite (token_valid_cached (ticked s) e He Ht). cbn.
  apply Z.ltb_ge in Hnow. specialize (Hk 0%nat).
  assert ((clock s 1%nat <? e) = false) as -> by (apply Z.ltb_ge; lia).
  reflexivity.
Qed.

(** Gone to the service on a ledger, [authenticate] raises exactly on the
    outcomes [auth_raises] names. *)
Lemma authenticate_remote_outcome (s s0 : state) (d : list (string * json)) :
  BookingAPIClient._is_token_valid s = (Ok false, s0) ->
  self s0 = self s -> disk s0 = disk s -> wire s0 = wire s ->
  ledger s = Some d -> steady (clock s0) ->
  exists a s' d',
    BookingAPIClient.authenticate s = (a, s')
    /\ wire s' = wire s ++ [PostAuth (base_url (self s)) (username (self s))
                                     (password (self s))]
    /\ ledger s' = Some d' /\ tracked d' = tracked d
    /\ base_url (self s') = base_url (self s)
    /\ steady (clock s')
    /\ auth_raises
         (service (wire s)
            (PostAuth (base_url (self s)) (username (self s))
               (password (self s))))
       = match a with Ok _ => false | Raise _ => true end.
Proof.
  intros Hv Hself Hdisk Hwire Hd Hk.
  assert (forall c w k, ledger (mkState c (disk s0) w k) = Some d) as Hd0.
  { intros. rewrite <- Hd. now apply ledger_disk. }
  unfold BookingAPIClient.authenticate.
  rewrite (bind_ok _ _ s s (self s)) by reflexivity.
  rewrite (bind_ok _ _ _ _ _ Hv).
  unfold BookingAPIClient.send, BookingAPIClient.Response_json, auth_raises.
  run. rewrite Hwire, Hself.
  destruct (service _ _) as [r|e]; [|now eexists _, _, d].
  destruct (status_code r =? 200); [|now eexists _, _, d].
  destruct (json_loads (content r)) as [body|]; [|now eexists _, _, d].
  destruct body as [| | | | |body]; try (now eexists _, _, d).
  cbn. destruct (Py.truthy _); [|now eexists _, _, d].
  cbn. rewrite (store_token_ledger _ d) by apply Hd0.
  eexists _, _, _. split; [reflexivity|]. cbn.
  repeat split.
  - now rewrite !tracked_update by discriminate.
  - intros n. apply Hk.
Qed.

Lemma ensure_token_outcome (s : state) (d : list (string * json)) :
  ledger s = Some d -> steady (clock s) ->
  exists a s' d' w,
    BookingAPIClient.ensure_token s = (a, s')
    /\ wire s' = wire s ++ w
    /\ ledger s' = Some d' /\ tracked d' = tracked d
    /\ base_url (self s') = base_url (self s)
    /\ steady (clock s')
    /\ ((w = [] /\ a = Ok tt)
        \/ exists u p,
            w = [PostAuth (base_url (self s)) u p]
            /\ auth_raises (service (wire s)
                              (PostAuth (base_url (self s)) u p))
               = match a with Ok _ => false | Raise _ => true end).
Proof.
  intros Hd Hk.
  assert (forall s1 s0,
             BookingAPIClient._is_token_valid s1 = (Ok false, s0) ->
             self s1 = self s -> disk s1 = disk s -> wire s1 = wire s ->
             self s0 = self s -> disk s0 = disk s -> wire s0 = wire s ->
             steady (clock s0) ->
             exists a s' d' w,
               (_ ← BookingAPIClient.authenticate; skip) s1 = (a, s')
               /\ wire s' = wire s ++ w
               /\ ledger s' = Some d' /\ tracked d' = tracked d
               /\ base_url (self s') = base_url (self s)
               /\ steady (clock s')
               /\ ((w = [] /\ a = Ok tt)
                   \/ exists u p,
                       w = [PostAuth (base_url (self s)) u p]
                       /\ auth_raises (service (wire s)
                                         (PostAuth (base_url (self s)) u p))
                          = match a with Ok _ => false | Raise _ => true end))
    as Hremote.
  { intros s1 s0 Hv Hs1 Hd1 Hw1 Hs0 Hd0 Hw0 Hk0.
    destruct (authenticate_remote_outcome s1 s0 d Hv)
      as (a & s' & d' & Hrun & Hw & Hd' & Hl & Hb & Hk' & Ha);
      try congruence.
    { rewrite <- Hd. now apply ledger_disk. }
    rewrite Hs1, Hw1 in *.
    destruct a as [r|e].
    - rewrite (bind_ok _ _ _ _ _ Hrun).
      exists (Ok tt), s', d',
        [PostAuth (base_url (self s)) (username (self s)) (password (self s))].
      split; [reflexivity|]. repeat (split; [assumption|]). right. eauto.
    - rewrite (bind_raise _ _ _ _ _ Hrun).
      exists (Raise e), s', d',
        [PostAuth (base_url (self s)) (username (self s)) (password (self s))].
      split; [reflexivity|]. repeat (split; [assumption|]). right. eauto. }
  unfold BookingAPIClient.ensure_token.
  destruct (Py.truthy (token (self s))) eqn:Ht;
    [destruct (token_expiry (self s)) as [e|] eqn:He|].
  - rewrite (bind_ok _ _ _ _ _ (token_valid_cached s e He Ht)).
    destruct (clock s 0%nat <? e) eqn:Hnow.
    + exists (Ok tt), (ticked s), d, []. rewrite app_nil_r.
      split; [reflexivity|]. split; [reflexivity|]. split; [exact Hd|].
      split; [reflexivity|]. split; [reflexivity|].
      split; [now apply steady_later|]. now left.
    + apply (Hremote (ticked s) (ticked (ticked s))); try reflexivity.
      * now apply (stale_stays_stale s e).
      * intros n. apply Hk.
  - rewrite (bind_ok _ _ _ _ _ (token_valid_no_expiry s He)).
    apply (Hremote s s); auto using token_valid_no_expiry.
  - assert (BookingAPIClient._is_token_valid s = (Ok false, s)) as Hv.
    { unfold BookingAPIClient._is_token_valid. run. now rewrite Ht. }
    rewrite (bind_ok _ _ _ _ _ Hv). apply (Hremote s s); auto.
Qed.

(** Under a steady clock one deletion attempt never raises, keeps the file
    a ledger with a list of ids, and sends what [attempted_on] says. *)
Lemma attempt_outcome (s : state) (d : list (string * json)) (l : list json)
      (id : json) :
  ledger s = Some d -> tracked d = Some l -> steady (clock s) ->
  exists s' d' l' w,
    BookingAPIClient.attempt id s = (Ok tt, s')
    /\ wire s' = wire s ++ w /\ attempted_on (wire s) id w
    /\ ledger s' = Some d' /\ tracked d' = Some l' /\ steady (clock s').
Proof.
  intros Hd Hl Hk.
  destruct (ensure_token_outcome s d Hd Hk)
    as (a & s1 & d1 & w & Hrun & Hw & Hd1 & Hl1 & Hb & Hk1 & Hcase).
  rewrite Hl in Hl1.
  unfold BookingAPIClient.attempt, try_except, BookingAPIClient.delete_booking.
  destruct a as [[]|e].
  - rewrite bind_bind, (bind_ok _ _ _ _ _ Hrun).
    unfold BookingAPIClient.send. run.
    assert (attempted_on (wire s) id
              (w ++ [DeleteBooking (base_url (self s1)) id (token (self s1))]))
      as Hsent.
    { rewrite Hb. destruct Hcase as [[-> _]|(u & p & -> & Ha)]; cbn.
      - constructor.
      - now constructor. }
    destruct (service _ _) as [r|e].
    + destruct (status_code r =? 201).
      * destruct (remove_booking_id_ledger
                    (mkState (self s1) (disk s1)
                       (wire s1 ++ [DeleteBooking (base_url (self s1)) id
                                      (token (self s1))]) (clock s1))
                    d1 l id)
          as (s2 & d2 & Hrm & Hd2 & Hl2 & _ & _ & Hw2 & Hk2);
          [rewrite <- Hd1; now apply ledger_disk|assumption|].
        rewrite Hrm. cbn in Hw2, Hk2.
        exists s2, d2, (without_id id l),
          (w ++ [DeleteBooking (base_url (self s1)) id (token (self s1))]).
        rewrite Hw2, Hw, <- app_assoc, Hk2. eauto 10.
      * eexists _, d1, l, _. split; [reflexivity|]. cbn.
        rewrite Hw, <- app_assoc. split; [reflexivity|].
        split; [assumption|].
        split; [rewrite <- Hd1; now apply ledger_disk|auto].
    + eexists _, d1, l, _. split; [reflexivity|]. cbn.
      rewrite Hw, <- app_assoc. split; [reflexivity|].
      split; [assumption|].
      split; [rewrite <- Hd1; now apply ledger_disk|auto].
  - rewrite bind_bind, (bind_raise _ _ _ _ _ Hrun).
    exists s1, d1, l, w. repeat split; try assumption.
    destruct Hcase as [[_ [=]]|(u & p & -> & Ha)]. now constructor.
Qed.

Lemma sweep_outcome (ids : list json) :
  forall (s : state) (d : list (string * json)) (l : list json),
    ledger s = Some d -> tracked d = Some l -> steady (clock s) ->
    exists s' w,
      for_each ids BookingAPIClient.attempt s = (Ok tt, s')
      /\ wire s' = wire s ++ w /\ swept_on (wire s) ids w.
Proof.
  induction ids as [|id ids IH]; intros s d l Hd Hl Hk.
  - exists s, []. rewrite app_nil_r. repeat split. constructor.
  - destruct (attempt_outcome s d l id Hd Hl Hk)
      as (s1 & d1 & l1 & w1 & Hrun & Hw1 & Hat & Hd1 & Hl1 & Hk1).
    destruct (IH s1 d1 l1 Hd1 Hl1 Hk1) as (s2 & w2 & Hrest & Hw2 & Hsw).
    exists s2, (w1 ++ w2). cbn [for_each].
    rewrite (bind_ok _ _ _ _ _ Hrun), Hrest.
    rewrite Hw2, Hw1, <- app_assoc. repeat split.
    rewrite Hw1 in Hsw. now constructor.
Qed.

(** C1.  On a ledger whose tracked ids are the list [ids], the client's
    [cleanup_test_data] returns without raising whatever the service does.
    It makes one deletion attempt per tracked id, in order.  Under a clock
    that does not run backwards every attempt puts the DELETE for its id
    on the wire, after a re-authentication if the token is stale, unless
    [authenticate] raises on the outcome of that re-authentication
    ([swept_on]); when the client's token stays valid the calls are
    exactly the DELETE calls for the ids; and under any clock nothing but
    such calls is made ([swept]).  Afterwards the backing file holds the
    empty ledger, so [get_booking_ids] returns the empty list and
    [get_token] returns [None]. *)
Theorem cleanup_sweeps_then_clears (s : state) (d : list (string * json))
        (ids : list json) :
  ledger s = Some d -> tracked d = Some ids ->
  exists s' w,
    BookingAPIClient.cleanup_test_data s = (Ok tt, s')
    /\ wire s' = (wire s ++ w)%list /\ swept ids w
    /\ (steady (clock s) -> swept_on (wire s) ids w)
    /\ (forall e, Py.truthy (token (self s)) = true ->
                  token_expiry (self s) = Some e ->
                  (forall n, clock s n < e) ->
                  w = map (fun id => DeleteBooking (base_url (self s)) id
                                       (token (self s))) ids)
    /\ disk s' = Holds (JDict [])
    /\ SelfHealing.get_booking_ids s' = (Ok (JList []), s')
    /\ SelfHealing.get_token s' = (Ok JNull, s').
Proof.
  intros Hd Hl.
  destruct (sweep_effect ids s d ids Hd Hl)
    as (s1 & d1 & l1 & w & Hsweep & Hw & Hsw & Hd1 & Hl1).
  exists (set_disk (Holds (JDict [])) s1), w.
  unfold BookingAPIClient.cleanup_test_data.
  rewrite (bind_ok _ _ _ _ _ (get_booking_ids_ledger s d ids Hd Hl)).
  run. cbn [Py.iter].
  rewrite Hsweep, (clear_ledger s1 d1 Hd1).
  split; [reflexivity|]. split; [assumption|]. split; [assumption|].
  split; [|split; [|repeat split]].
  - intros Hk.
    destruct (sweep_outcome ids s d ids Hd Hl Hk) as (s2 & w' & Hrun & Hw' & Hon).
    rewrite Hsweep in Hrun. injection Hrun as <-.
    rewrite Hw in Hw'. apply app_inv_head in Hw'. now subst w'.
  - intros e Ht He Hnow.
    destruct (sweep_signed_in ids s d ids e Hd Hl Ht He Hnow)
      as (s2 & Hrun & Hw').
    rewrite Hsweep in Hrun. injection Hrun as <-.
    rewrite Hw in Hw'. now apply app_inv_head in Hw'.
Qed.

End Client.

(** ** Claims about the store *)

Section StoreClaims.
Context `{Env}.

Lemma with_id_again (x : json) (l : list json) :
  Py.eq x x = true -> with_id x (with_id x l) = with_id x l.
Proof.
  intros Hx. unfold with_id at 2 3.
  destruct (existsb _ l) eqn:Hl; unfold with_id.
  - now rewrite Hl.
  - rewrite existsb_app, Hl. cbn. now rewrite Hx.
Qed.

Lemma count_with_id (x : json) (l : list json) :
  Py.eq x x = true -> (count x l <= 1)%nat -> count x (with_id x l) = 1%nat.
Proof.
  intros Hx Hle. unfold with_id.
  destruct (existsb _ l) eqn:Hl.
  - apply count_known in Hl. lia.
  - rewrite count_app, (count_unknown _ _ Hl). cbn. now rewrite Hx.
Qed.

Lemma with_id_ints (i : Z) (l : list Z) :
  NoDup l ->
  exists l', with_id (JInt i) (map JInt l) = map JInt l'
             /\ NoDup l' /\ forall j, j ∈ l' <-> j ∈ l \/ j = i.
Proof.
  intros Hl. unfold with_id. rewrite known_ints.
  destruct (bool_decide_reflect (i ∈ l)) as [Hi|Hi].
  - exists l. split; [reflexivity|]. split; [assumption|].
    intros j. split; [tauto|]. intros [?| ->]; assumption.
  - exists (l ++ [i]). rewrite map_app. split; [reflexivity|]. split.
    + apply NoDup_app. split; [assumption|]. split; [|apply NoDup_singleton].
      intros j Hj ->%list_elem_of_singleton. contradiction.
    + intros j. rewrite elem_of_app, list_elem_of_singleton. tauto.
Qed.

Lemma ints_inj (l l' : list Z) : map JInt l = map JInt l' -> l = l'.
Proof.
  revert l'. induction l as [|k l IH]; intros [|k' l']; cbn;
    intros [=]; subst; f_equal; auto.
Qed.

Lemma without_id_ints (i : Z) (l : list Z) :
  NoDup l ->
  exists l', without_id (JInt i) (map JInt l) = map JInt l'
             /\ NoDup l' /\ forall j, j ∈ l' <-> j ∈ l /\ j <> i.
Proof.
  unfold without_id. induction l as [|k l IH]; intros Hl.
  - exists []. cbn. split; [reflexivity|]. split; [constructor|].
    intros j. rewrite elem_of_nil. tauto.
  - apply NoDup_cons in Hl as [Hk Hl]. cbn.
    destruct (Z.eqb_spec k i) as [->|Hne].
    + exists l. split; [reflexivity|]. split; [assumption|].
      intros j. rewrite elem_of_cons. split; [|tauto].
      intros Hj. split; [tauto|]. intros ->. contradiction.
    + destruct (IH Hl) as (l' & Heq & Hnd & Hin).
      destruct (Py.remove_first (JInt i) (map JInt l)) as [r|].
      * exists (k :: l'). cbn. rewrite Heq. split; [reflexivity|].
        split.
        -- apply NoDup_cons. split; [|assumption].
           intros [Hk' _]%Hin. contradiction.
        -- intros j. rewrite !elem_of_cons, Hin.
           split; [intros [->|]; tauto|tauto].
      * exists (k :: l). split; [reflexivity|].
        apply ints_inj in Heq. subst l'.
        split; [apply NoDup_cons; tauto|].
        intros j. rewrite !elem_of_cons. specialize (Hin j).
        split; [intros [->|]; tauto|tauto].
Qed.

(** C5.  On every ledger, storing the integer id [i] twice succeeds both
    times and the second call leaves the tracked ids as the first left
    them: the ids before, with [i] added at the end if it was not among
    them.  If the ledger held [i] at most once, they hold it exactly
    once. *)
Theorem store_booking_id_twice (s : state) (d : list (string * json))
        (l : list json) (i : Z) :
  ledger s = Some d -> tracked d = Some l ->
  exists s1 s2 l',
    SelfHealing.store_booking_id (JInt i) s = (Ok tt, s1)
    /\ SelfHealing.store_booking_id (JInt i) s1 = (Ok tt, s2)
    /\ SelfHealing.get_booking_ids s1 = (Ok (JList l'), s1)
    /\ SelfHealing.get_booking_ids s2 = (Ok (JList l'), s2)
    /\ l' = with_id (JInt i) l
    /\ Py.contains (JInt i) (JList l') = Ok true
    /\ ((count (JInt i) l <= 1)%nat -> count (JInt i) l' = 1%nat).
Proof.
  intros Hd Hl.
  assert (Py.eq (JInt i) (JInt i) = true) as Hi by apply Z.eqb_refl.
  destruct (store_booking_id_ledger s d l (JInt i) Hd Hl)
    as (d1 & Hrun1 & Hl1 & _).
  set (s1 := mkState (self s) (Holds (JDict d1)) (wire s) (clock (ticked s)))
    in *.
  destruct (store_booking_id_ledger s1 d1 _ (JInt i) eq_refl Hl1)
    as (d2 & Hrun2 & Hl2 & _).
  rewrite with_id_again in Hl2 by assumption.
  eexists s1, _, (with_id (JInt i) l).
  split; [exact Hrun1|]. split; [exact Hrun2|].
  split; [now apply (get_booking_ids_ledger s1 d1)|].
  split; [now apply (get_booking_ids_ledger _ d2)|].
  split; [reflexivity|]. split.
  - cbn. f_equal. unfold with_id.
    destruct (existsb _ l) eqn:Hk; [assumption|].
    rewrite existsb_app, Hk. cbn. now rewrite Z.eqb_refl.
  - now apply count_with_id.
Qed.

(** C6.  On every ledger, [store_token t] followed by [get_token] returns
    [t], and the store's [cleanup_test_data] (the full clear) followed by
    [get_token] returns [None]. *)
Theorem token_round_trip (s : state) (d : list (string * json)) (t : string) :
  ledger s = Some d ->
  (exists s1,
      SelfHealing.store_token (JStr t) s = (Ok tt, s1)
      /\ SelfHealing.get_token s1 = (Ok (JStr t), s1))
  /\ (exists s2,
         SelfHealing.cleanup_test_data s = (Ok tt, s2)
         /\ SelfHealing.get_token s2 = (Ok JNull, s2)).
Proof.
  intros Hd. split.
  - eexists. split; [exact (store_token_ledger s d _ Hd)|].
    erewrite get_token_ledger by reflexivity.
    now rewrite !lookup_update.
  - eexists. split; [now apply (clear_ledger s d)|]. reflexivity.
Qed.

(** C7.  On a ledger whose tracked ids do not contain the integer [i],
    [remove_booking_id i] returns without raising and the whole state,
    backing file included, is unchanged. *)
Theorem remove_untracked_id_is_noop (s : state) (d : list (string * json))
        (l : list json) (i : Z) :
  ledger s = Some d -> tracked d = Some l ->
  Py.contains (JInt i) (JList l) = Ok false ->
  SelfHealing.remove_booking_id (JInt i) s = (Ok tt, s).
Proof.
  intros Hd Hl [= Hi]. now apply (remove_booking_id_unknown s d l).
Qed.

(** Each operation keeps the tracked ids a duplicate-free list of
    integers and moves their set as [outstanding_step] says. *)
Lemma run_op_tracks (o : op) (s : state) (d : list (string * json))
      (l : list Z) :
  ledger s = Some d -> tracked d = Some (map JInt l) -> NoDup l ->
  exists s' d' l',
    run_op o s = (Ok tt, s')
    /\ ledger s' = Some d' /\ tracked d' = Some (map JInt l') /\ NoDup l'
    /\ list_to_set l' = outstanding_step (list_to_set l) o.
Proof.
  intros Hd Hl Hnd. destruct o as [t|i|i|]; cbn [run_op outstanding_step].
  - eexists _, _, l. split; [exact (store_token_ledger s d _ Hd)|].
    split; [reflexivity|].
    rewrite !tracked_update by discriminate. auto.
  - destruct (store_booking_id_ledger s d _ (JInt i) Hd Hl)
      as (d' & Hrun & Hl' & _).
    destruct (with_id_ints i l Hnd) as (l' & Heq & Hnd' & Hin).
    rewrite Heq in Hl'. eexists _, d', l'.
    split; [exact Hrun|]. split; [reflexivity|].
    split; [assumption|]. split; [assumption|].
    apply set_eq. intros j.
    rewrite elem_of_union, !elem_of_list_to_set, elem_of_singleton. apply Hin.
  - destruct (remove_booking_id_ledger s d _ (JInt i) Hd Hl)
      as (s' & d' & Hrun & Hd' & Hl' & _).
    destruct (without_id_ints i l Hnd) as (l' & Heq & Hnd' & Hin).
    rewrite Heq in Hl'. exists s', d', l'.
    split; [exact Hrun|]. split; [assumption|].
    split; [assumption|]. split; [assumption|].
    apply set_eq. intros j.
    rewrite elem_of_difference, !elem_of_list_to_set, elem_of_singleton.
    apply Hin.
  - eexists _, [], []. split; [now apply (clear_ledger s d)|].
    split; [reflexivity|]. split; [reflexivity|]. split; [constructor|].
    reflexivity.
Qed.

Lemma run_ops_track (ops : list op) :
  forall (s : state) (d : list (string * json)) (l : list Z),
    ledger s = Some d -> tracked d = Some (map JInt l) -> NoDup l ->
    exists s' l',
      run_ops ops s = (Ok tt, s')
      /\ SelfHealing.get_booking_ids s' = (Ok (JList (map JInt l')), s')
      /\ NoDup l'
      /\ list_to_set l' = fold_left outstanding_step ops (list_to_set l).
Proof.
  induction ops as [|o ops IH]; intros s d l Hd Hl Hnd.
  - exists s, l. split; [reflexivity|].
    split; [now apply (get_booking_ids_ledger s d)|]. auto.
  - destruct (run_op_tracks o s d l Hd Hl Hnd)
      as (s1 & d1 & l1 & Hrun & Hd1 & Hl1 & Hnd1 & Hset).
    destruct (IH s1 d1 l1 Hd1 Hl1 Hnd1) as (s2 & l2 & Hrest & Hget & Hnd2 & Hset2).
    exists s2, l2. unfold run_ops in *. cbn [for_each fold_left].
    rewrite (bind_ok _ _ _ _ _ Hrun), Hrest, <- Hset. auto.
Qed.

(** C9.  From the empty ledger, every sequence of [store_token],
    [store_booking_id], [remove_booking_id] and full clear succeeds, and
    the stored ["booking_ids"] is then a duplicate-free list of exactly
    the ids stored and not removed since the last clear ([outstanding]). *)
Theorem booking_ids_are_the_outstanding_ids (s : state) (ops : list op) :
  ledger s = Some [] ->
  exists s' l,
    run_ops ops s = (Ok tt, s')
    /\ SelfHealing.get_booking_ids s' = (Ok (JList (map JInt l)), s')
    /\ NoDup l
    /\ list_to_set l = outstanding ops.
Proof.
  intros Hd.
  apply (run_ops_track ops s [] []); [assumption|reflexivity|constructor].
Qed.

End StoreClaims.

(** ** Claims about authentication and tracking *)

Section ClientClaims.
Context `{Env}.

(** The bytes of the synthetic body, written out: an opening brace, the
    quoted key, a colon, and the token between quotes before the closing
    brace. *)
Lemma token_body_bytes (t : string) :
  BookingAPIClient.token_body t =
  String.append
    (String "{"%char
       (String "034"%char
          (String "t"%char
             (String "o"%char
                (String "k"%char
                   (String "e"%char
                      (String "n"%char
                         (String "034"%char
                            (String ":"%char
                               (String "034"%char EmptyString))))))))))
    (String.append t (String "034"%char (String "}"%char EmptyString))).
Proof. reflexivity. Qed.

(** C2, amended.  When the client holds a non-empty token without a
    surrogate code point and an expiry that the next reading of the clock
    precedes, [authenticate] returns a response of status 200 whose body
    is the bytes [{"token":"] followed by the bytes of the token and by
    ["}], and puts nothing on the wire; the client and the backing file
    are as before. *)
Theorem authenticate_reuses_valid_token (s : state) (t : string) (e : Z) :
  token (self s) = JStr t -> t <> "" -> Py.has_surrogate t = false ->
  token_expiry (self s) = Some e ->
  clock s 0%nat < e ->
  exists r s',
    BookingAPIClient.authenticate s = (Ok r, s')
    /\ status_code r = 200
    /\ content r
       = String.append
           (String "{"%char
              (String "034"%char
                 (String "t"%char
                    (String "o"%char
                       (String "k"%char
                          (String "e"%char
                             (String "n"%char
                                (String "034"%char
                                   (String ":"%char
                                      (String "034"%char EmptyString))))))))))
           (String.append t (String "034"%char (String "}"%char EmptyString)))
    /\ wire s' = wire s /\ self s' = self s /\ disk s' = disk s.
Proof.
  intros Ht Hne Hsur He Hnow.
  assert (Py.truthy (token (self s)) = true) as Htruthy.
  { rewrite Ht. cbn. now destruct (String.eqb_spec t ""). }
  unfold BookingAPIClient.authenticate.
  rewrite (bind_ok _ _ s s (self s)) by reflexivity.
  rewrite (bind_ok _ _ _ _ _ (token_valid_cached s e He Htruthy)).
  apply Z.ltb_lt in Hnow. rewrite Hnow, Ht. cbn. rewrite Hsur. cbn.
  eexists _, _. split; [reflexivity|]. cbn.
  split; [reflexivity|]. split; [apply token_body_bytes|]. now repeat split.
Qed.

(** C3, amended.  Given the answer [r] of the service to the create call:
    if [r] has status 200 and its body is an object whose ["bookingid"] is
    a non-zero integer [i], then on a ledger [create_booking] returns [r]
    and [get_booking_ids] afterwards contains [i]; if the status of [r] is
    not 200, [create_booking] returns [r] and leaves the backing file and
    the client as they were. *)
Theorem create_booking_tracks_nonzero_id (s : state) (booking_data : json)
        (r : Response) :
  service (wire s) (PostBooking (base_url (self s)) booking_data) = Ok r ->
  (forall d l body i,
      status_code r = 200 ->
      json_loads (content r) = Some (JDict body) ->
      Py.lookup "bookingid" body = Some (JInt i) -> i <> 0 ->
      ledger s = Some d -> tracked d = Some l ->
      exists s' l',
        BookingAPIClient.create_booking booking_data s = (Ok r, s')
        /\ SelfHealing.get_booking_ids s' = (Ok (JList l'), s')
        /\ Py.contains (JInt i) (JList l') = Ok true)
  /\ (status_code r <> 200 ->
      exists s',
        BookingAPIClient.create_booking booking_data s = (Ok r, s')
        /\ disk s' = disk s /\ self s' = self s).
Proof.
  intros Hr. unfold BookingAPIClient.create_booking.
  rewrite (bind_ok _ _ s s (self s)) by reflexivity.
  unfold BookingAPIClient.send, BookingAPIClient.Response_json. run.
  rewrite Hr. split.
  - intros d l body i H200 Hbody Hid Hi Hd Hl.
    apply Z.eqb_eq in H200. rewrite H200, Hbody. cbn. rewrite Hid. cbn.
    destruct (Z.eqb_spec i 0) as [|_]; [contradiction|]. cbn.
    destruct (store_booking_id_ledger
                (mkState (self s) (disk s)
                   (wire s ++ [PostBooking (base_url (self s)) booking_data])
                   (clock s)) d l (JInt i) Hd Hl)
      as (d' & Hrun & Hl' & _).
    rewrite Hrun. eexists _, (with_id (JInt i) l). split; [reflexivity|].
    split; [now apply (get_booking_ids_ledger _ d')|].
    cbn. f_equal. unfold with_id.
    destruct (existsb _ l) eqn:Hk; [assumption|].
    rewrite existsb_app, Hk. cbn. now rewrite Z.eqb_refl.
  - intros H200. apply Z.eqb_neq in H200. rewrite H200.
    eexists. split; [reflexivity|]. now cbn.
Qed.

Lemma token_valid_frame (s s0 : state) (b : bool) :
  BookingAPIClient._is_token_valid s = (Ok b, s0) ->
  self s0 = self s /\ disk s0 = disk s /\ wire s0 = wire s.
Proof.
  intros Hv. destruct (token_valid_effect s) as (b' & s' & Hv' & Hframe).
  rewrite Hv in Hv'. now injection Hv' as -> ->.
Qed.

(** C8, amended.  Let [authenticate] go to the service (the validity
    check fails) and let the service answer [r].  If [r] has status 200
    and its body is an object with a truthy ["token"], then on a ledger
    the client's token is that token, its expiry is the clock's next
    reading plus one hour, and [get_token] returns the token.  If [r] has
    status 200 and its body is an object without ["token"], the client's
    token becomes [None], and the expiry and the backing file stay as they
    were.  If the status of [r] is not 200, the client and the backing
    file stay as they were.  In each case [r] is returned. *)
Theorem authenticate_remote_bookkeeping (s s0 : state) (r : Response) :
  BookingAPIClient._is_token_valid s = (Ok false, s0) ->
  service (wire s)
    (PostAuth (base_url (self s)) (username (self s)) (password (self s)))
  = Ok r ->
  (forall d body tok,
      status_code r = 200 ->
      json_loads (content r) = Some (JDict body) ->
      Py.lookup "token" body = Some tok -> Py.truthy tok = true ->
      ledger s = Some d ->
      exists s',
        BookingAPIClient.authenticate s = (Ok r, s')
        /\ token (self s') = tok
        /\ token_expiry (self s') = Some (clock s0 0%nat + one_hour)
        /\ SelfHealing.get_token s' = (Ok tok, s'))
  /\ (forall body,
         status_code r = 200 ->
         json_loads (content r) = Some (JDict body) ->
         Py.lookup "token" body = None ->
         exists s',
           BookingAPIClient.authenticate s = (Ok r, s')
           /\ token (self s') = JNull
           /\ token_expiry (self s') = token_expiry (self s)
           /\ disk s' = disk s)
  /\ (status_code r <> 200 ->
      exists s',
        BookingAPIClient.authenticate s = (Ok r, s')
        /\ self s' = self s /\ disk s' = disk s).
Proof.
  intros Hv Hr.
  destruct (token_valid_frame s s0 false Hv) as (Hself & Hdisk & Hwire).
  unfold BookingAPIClient.authenticate.
  rewrite (bind_ok _ _ s s (self s)) by reflexivity.
  rewrite (bind_ok _ _ _ _ _ Hv).
  unfold BookingAPIClient.send, BookingAPIClient.Response_json. run.
  rewrite Hwire, Hself, Hr. split; [|split].
  - intros d body tok H200 Hbody Htok Htruthy Hd.
    apply Z.eqb_eq in H200. rewrite H200, Hbody. cbn. rewrite Htok, Htruthy.
    cbn. erewrite (store_token_ledger _ d)
      by (rewrite <- Hd; now apply ledger_disk).
    eexists. split; [reflexivity|]. cbn. repeat split.
    erewrite get_token_ledger by reflexivity.
    now rewrite !lookup_update.
  - intros body H200 Hbody Htok.
    apply Z.eqb_eq in H200. rewrite H200, Hbody. cbn. rewrite Htok. cbn.
    eexists. split; [reflexivity|]. now cbn.
  - intros H200. apply Z.eqb_neq in H200. rewrite H200.
    eexists. split; [reflexivity|]. now cbn.
Qed.

Lemma store_token_wire (tok : json) (s : state) :
  wire (snd (SelfHealing.store_token tok s)) = wire s.
Proof.
  unfold SelfHealing.store_token, SelfHealing._load_data,
    SelfHealing._save_data. run.
  destruct (disk s) as [| | |[]]; reflexivity.
Qed.

Lemma authenticate_without_expiry (s : state) :
  token_expiry (self s) = None ->
  exists r s',
    BookingAPIClient.authenticate s = (r, s')
    /\ wire s' = wire s ++ [PostAuth (base_url (self s)) (username (self s))
                                     (password (self s))].
Proof.
  intros He. unfold BookingAPIClient.authenticate.
  rewrite (bind_ok _ _ s s (self s)) by reflexivity.
  rewrite (bind_ok _ _ _ _ _ (token_valid_no_expiry s He)).
  unfold BookingAPIClient.send, BookingAPIClient.Response_json. run.
  destruct (service _ _) as [r|e]; [|now eauto].
  destruct (status_code r =? 200); [|now eauto].
  destruct (json_loads (content r)) as [body|]; [|now eauto].
  destruct (Py.get body "token" JNull) as [tok|]; [|now eauto].
  destruct (Py.truthy tok); [|now eauto].
  cbn. match goal with
       | |- context [SelfHealing.store_token tok ?s1] =>
           pose proof (store_token_wire tok s1) as Hw;
           destruct (SelfHealing.store_token tok s1) as [[[]|e] s2]
       end; cbn in Hw; eauto.
Qed.

Lemma get_token_state (s : state) :
  exists r, SelfHealing.get_token s = (r, s).
Proof.
  unfold SelfHealing.get_token, SelfHealing._load_data. run.
  destruct (disk s); eauto.
Qed.

Lemma get_booking_ids_state (s : state) :
  exists r, SelfHealing.get_booking_ids s = (r, s).
Proof.
  unfold SelfHealing.get_booking_ids, SelfHealing._load_data. run.
  destruct (disk s); eauto.
Qed.

(** Recovery reads the store and may set the token, nothing else. *)
Lemma self_healing_effect (s : state) :
  exists r t,
    BookingAPIClient._attempt_self_healing s =
    (r, set_self (set_token t (self s)) s)
    /\ forall tok, SelfHealing.get_token s = (Ok tok, s) ->
                   Py.truthy tok = true -> t = tok.
Proof.
  unfold BookingAPIClient._attempt_self_healing.
  destruct (get_token_state s) as [[tok|e] Ht].
  - rewrite (bind_ok _ _ _ _ _ Ht).
    destruct (Py.truthy tok) eqn:Htruthy.
    + set (s1 := set_self (set_token tok (self s)) s).
      rewrite (bind_ok _ _ s s1 tt) by reflexivity.
      destruct (get_booking_ids_state s1) as [[ids|e] Hids].
      * rewrite (bind_ok _ _ _ _ _ Hids). run.
        destruct (Py.truthy ids); [destruct (Py.len ids)|];
          eexists _, tok; (split; [reflexivity|]); congruence.
      * rewrite (bind_raise _ _ _ _ _ Hids).
        eexists _, tok; (split; [reflexivity|]); congruence.
    + rewrite (bind_ok _ _ s s tt) by reflexivity.
      assert (s = set_self (set_token (token (self s)) (self s)) s) as Hs
          by now destruct s as [[] ? ? ?].
      destruct (get_booking_ids_state s) as [[ids|e] Hids].
      * rewrite (bind_ok _ _ _ _ _ Hids). run.
        destruct (Py.truthy ids); [destruct (Py.len ids)|];
          eexists _, (token (self s)); (split; [now rewrite <- Hs|]);
          congruence.
      * rewrite (bind_raise _ _ _ _ _ Hids).
        eexists _, (token (self s)); (split; [now rewrite <- Hs|]);
          congruence.
  - rewrite (bind_raise _ _ _ _ _ Ht).
    assert (s = set_self (set_token (token (self s)) (self s)) s) as Hs
        by now destruct s as [[] ? ? ?].
    eexists _, (token (self s)); (split; [now rewrite <- Hs|]); congruence.
Qed.

(** C10.  Constructing a client, whatever the backing file holds, leaves
    [token_expiry] unset and the wire untouched while a truthy stored
    token becomes the client's token; so the validity check fails on the
    new client, and its first [authenticate] puts the authentication call
    on the wire. *)
Theorem recovered_token_is_never_reused (s : state)
        (user pass : option string) :
  let s1 := snd (BookingAPIClient.__init__ user pass s) in
  token_expiry (self s1) = None
  /\ wire s1 = wire s
  /\ (forall d t,
        ledger s = Some d -> Py.lookup "token" d = Some t ->
        Py.truthy t = true -> token (self s1) = t)
  /\ BookingAPIClient._is_token_valid s1 = (Ok false, s1)
  /\ exists r s2,
      BookingAPIClient.authenticate s1 = (r, s2)
      /\ wire s2 = wire s1 ++ [PostAuth (base_url (self s1))
                                        (username (self s1))
                                        (password (self s1))].
Proof.
  intros s1. unfold BookingAPIClient.__init__ in s1.
  set (c := mkClient _ _ _ JNull None) in s1.
  destruct (self_healing_effect (set_self c s)) as (r & t & Hrun & Ht).
  assert (s1 = set_self (set_token t c) s) as ->.
  { subst s1. unfold mbind, M_bind, modify. now rewrite Hrun. }
  split; [reflexivity|]. split; [reflexivity|]. split.
  - intros d t' Hd Ht' Htruthy. cbn. apply Ht; [|assumption].
    rewrite (get_token_ledger _ d) by exact Hd. now rewrite Ht'.
  - split; [now apply token_valid_no_expiry|].
    now apply authenticate_without_expiry.
Qed.

End ClientClaims.

(** ** The scenarios, run *)

Module Run.

Lemma cleanup_sweep_scenario :
  (exists s',
      @BookingAPIClient.cleanup_test_data Scenario.env Scenario.teardown
      = (Ok tt, s')
      /\ wire s' = [DeleteBooking Scenario.base (JInt 101) (JStr "abc123");
                    DeleteBooking Scenario.base (JInt 102) (JStr "abc123")]
      /\ disk s' = Holds (JDict []))
  /\ (exists s',
         @BookingAPIClient.cleanup_test_data Scenario.env Scenario.leftovers
         = (Ok tt, s')
         /\ wire s' = [PostAuth Scenario.base "admin" "password123";
                       DeleteBooking Scenario.base (JInt 101) (JStr "abc123");
                       DeleteBooking Scenario.base (JInt 102) (JStr "abc123")]
         /\ @swept_on Scenario.env [] [JInt 101; JInt 102] (wire s')
         /\ disk s' = Holds (JDict [])).
Proof.
  split.
  - destruct (@cleanup_sweeps_then_clears Scenario.env Scenario.teardown
                _ [JInt 101; JInt 102] eq_refl eq_refl)
      as (s' & w & Hrun & Hw & _ & _ & Hvalid & Hdisk & _).
    exists s'. split; [exact Hrun|]. split; [|exact Hdisk].
    rewrite Hw. rewrite (Hvalid _ eq_refl eq_refl); [reflexivity|].
    intros n. vm_compute. reflexivity.
  - destruct (@cleanup_sweeps_then_clears Scenario.env Scenario.leftovers
                _ [JInt 101; JInt 102] eq_refl eq_refl)
      as (s' & w & Hrun & Hw & _ & Hon & _ & Hdisk & _).
    exists s'. split; [exact Hrun|].
    assert (wire (snd (@BookingAPIClient.cleanup_test_data Scenario.env
                         Scenario.leftovers))
            = [PostAuth Scenario.base "admin" "password123";
               DeleteBooking Scenario.base (JInt 101) (JStr "abc123");
               DeleteBooking Scenario.base (JInt 102) (JStr "abc123")])
      as Hwire by (vm_compute; reflexivity).
    rewrite Hrun in Hwire. split; [exact Hwire|]. split; [|exact Hdisk].
    rewrite Hw. apply Hon. intros n. vm_compute. discriminate.
Defined.

Lemma cached_auth_scenario :
  exists r s',
    @BookingAPIClient.authenticate Scenario.env Scenario.signed_in
    = (Ok r, s')
    /\ status_code r = 200
    /\ content r
       = String "{"%char
           (String "034"%char
              (String.append "token"
                 (String "034"%char
                    (String ":"%char
                       (String "034"%char
                          (String.append "abc123"
                             (String "034"%char "}")))))))
    /\ wire s' = [] /\ self s' = Scenario.member_client
    /\ disk s' = disk Scenario.signed_in.
Proof.
  apply (@authenticate_reuses_valid_token Scenario.env Scenario.signed_in
           "abc123" (12 * one_hour + 1800000000)).
  - reflexivity.
  - discriminate.
  - reflexivity.
  - reflexivity.
  - vm_compute. reflexivity.
Defined.

Lemma authenticate_cannot_encode_a_surrogate :
  @BookingAPIClient.authenticate Scenario.env Cases.surrogate_token
  = (Raise UnicodeEncodeError, ticked Cases.surrogate_token)
  /\ Py.truthy (token (self Cases.surrogate_token)) = true
  /\ token_expiry (self Cases.surrogate_token)
     = Some (12 * one_hour + 1800000000)
  /\ clock Cases.surrogate_token 0%nat < 12 * one_hour + 1800000000.
Proof. repeat split. Qed.

Lemma create_track_scenario :
  exists s' ids,
    @BookingAPIClient.create_booking Scenario.env JNull Scenario.fresh
    = (Ok (mkResponse 200 (Scenario.member "bookingid" "55")), s')
    /\ SelfHealing.get_booking_ids s' = (Ok (JList ids), s')
    /\ Py.contains (JInt 55) (JList ids) = Ok true.
Proof.
  refine (proj1 (@create_booking_tracks_nonzero_id Scenario.env
                   Scenario.fresh JNull _ eq_refl)
                [] [] [("bookingid", JInt 55)] 55 _ _ _ _ _ _).
  - reflexivity.
  - vm_compute. reflexivity.
  - reflexivity.
  - discriminate.
  - reflexivity.
  - reflexivity.
Defined.

Lemma create_booking_drops_id_zero :
  exists r s' ids,
    @BookingAPIClient.create_booking Scenario.env0 JNull Scenario.fresh
    = (Ok r, s')
    /\ status_code r = 200
    /\ Scenario.loads (content r) = Some (JDict [("bookingid", JInt 0)])
    /\ SelfHealing.get_booking_ids s' = (Ok ids, s')
    /\ Py.contains (JInt 0) ids = Ok false.
Proof.
  eexists _, _, _. split; [vm_compute; reflexivity|].
  repeat split; vm_compute; reflexivity.
Qed.

(** C4.  The code at a backing file that holds the two bytes [FF FE],
    which are no UTF-8: [_load_data] raises [UnicodeDecodeError] where
    the claim has it return an empty ledger, as it does return one for
    the text [{broken], which is no JSON. *)
Theorem load_raises_on_undecodable_bytes :
  decodable (String "255"%char (String "254"%char EmptyString)) = false
  /\ SelfHealing._load_data
       (Cases.found (String "255"%char (String "254"%char EmptyString)))
     = (Raise UnicodeDecodeError,
        Cases.found (String "255"%char (String "254"%char EmptyString)))
  /\ decodable "{broken" = true
  /\ SelfHealing._load_data (Cases.found "{broken")
     = (Ok (JDict []), Cases.found "{broken").
Proof. repeat split. Qed.

Lemma store_twice_scenario :
  exists s1 s2 ids,
    @SelfHealing.store_booking_id Scenario.env (JInt 55) Scenario.fresh
    = (Ok tt, s1)
    /\ @SelfHealing.store_booking_id Scenario.env (JInt 55) s1 = (Ok tt, s2)
    /\ SelfHealing.get_booking_ids s1 = (Ok (JList ids), s1)
    /\ SelfHealing.get_booking_ids s2 = (Ok (JList ids), s2)
    /\ ids = [JInt 55]
    /\ count (JInt 55) ids = 1%nat.
Proof.
  destruct (@store_booking_id_twice Scenario.env Scenario.fresh [] [] 55
              eq_refl eq_refl)
    as (s1 & s2 & ids & Hrun1 & Hrun2 & Hget1 & Hget2 & Hids & _ & Honce).
  exists s1, s2, ids. repeat split; try assumption.
  apply Honce. cbn. lia.
Defined.

Lemma token_round_trip_scenario :
  (exists s1,
      @SelfHealing.store_token Scenario.env (JStr "abc123") Scenario.fresh
      = (Ok tt, s1)
      /\ SelfHealing.get_token s1 = (Ok (JStr "abc123"), s1))
  /\ (exists s2,
         SelfHealing.cleanup_test_data Scenario.fresh = (Ok tt, s2)
         /\ SelfHealing.get_token s2 = (Ok JNull, s2)).
Proof.
  apply (@token_round_trip Scenario.env Scenario.fresh [] "abc123").
  reflexivity.
Defined.

Lemma remove_untracked_scenario :
  SelfHealing.remove_booking_id (JInt 7) Scenario.leftovers
  = (Ok tt, Scenario.leftovers).
Proof.
  apply (remove_untracked_id_is_noop Scenario.leftovers
           [("token", JStr "abc123");
            ("booking_ids", JList [JInt 101; JInt 102])]
           [JInt 101; JInt 102] 7).
  - reflexivity.
  - reflexivity.
  - reflexivity.
Defined.

Lemma first_authentication_scenario :
  exists s',
    @BookingAPIClient.authenticate Scenario.env Scenario.fresh
    = (Ok (mkResponse 200 (BookingAPIClient.token_body "abc123")), s')
    /\ token (self s') = JStr "abc123"
    /\ token_expiry (self s') = Some (Scenario.noon 0%nat + one_hour)
    /\ SelfHealing.get_token s' = (Ok (JStr "abc123"), s').
Proof.
  refine (proj1 (@authenticate_remote_bookkeeping Scenario.env
                   Scenario.fresh Scenario.fresh _ eq_refl eq_refl)
                [] [("token", JStr "abc123")] (JStr "abc123") _ _ _ _ _).
  - reflexivity.
  - vm_compute. reflexivity.
  - reflexivity.
  - reflexivity.
  - reflexivity.
Defined.

Lemma authentication_without_token_sets_no_expiry :
  exists r s',
    @BookingAPIClient.authenticate Scenario.env Scenario.stranger
    = (Ok r, s')
    /\ wire s' = [PostAuth Scenario.base "guest" "guest"]
    /\ status_code r = 200
    /\ content r
       = String "{"%char
           (String "034"%char
              (String.append "reason"
                 (String "034"%char
                    (String ":"%char
                       (String "034"%char
                          (String.append "Bad credentials"
                             (String "034"%char "}")))))))
    /\ Scenario.loads (content r)
       = Some (JDict [("reason", JStr "Bad credentials")])
    /\ token_expiry (self s') = None
    /\ disk s' = Absent
    /\ SelfHealing.get_token s' = (Ok JNull, s').
Proof.
  eexists _, _. split; [vm_compute; reflexivity|].
  repeat split; vm_compute; reflexivity.
Qed.

Lemma recovery_scenario :
  let s1 := snd (@BookingAPIClient.__init__ Scenario.env None None
                   Scenario.leftovers) in
  token (self s1) = JStr "abc123"
  /\ token_expiry (self s1) = None
  /\ exists r s2,
      @BookingAPIClient.authenticate Scenario.env s1 = (r, s2)
      /\ wire s2 = [PostAuth Scenario.base "admin" "password123"].
Proof.
  destruct (@recovered_token_is_never_reused Scenario.env Scenario.leftovers
              None None)
    as (Hexpiry & Hwire & Htoken & _ & r & s2 & Hrun & Hsent).
  split; [exact (Htoken _ (JStr "abc123") eq_refl eq_refl eq_refl)|].
  split; [exact Hexpiry|].
  exists r, s2. split; [exact Hrun|].
  rewrite Hsent, Hwire. reflexivity.
Defined.

Lemma outstanding_ids_scenario :
  exists s' l,
    @run_ops Scenario.env
      [StoreId 101; StoreId 102; StoreId 101; StoreToken "abc123";
       RemoveId 101]
      Scenario.fresh
    = (Ok tt, s')
    /\ SelfHealing.get_booking_ids s' = (Ok (JList (map JInt l)), s')
    /\ NoDup l
    /\ list_to_set l
       = outstanding [StoreId 101; StoreId 102; StoreId 101;
                      StoreToken "abc123"; RemoveId 101].
Proof.
  apply (@booking_ids_are_the_outstanding_ids Scenario.env Scenario.fresh).
  reflexivity.
Defined.

End Run.

(** * Further properties of the store *)

Section StoreMore.
Context `{Env}.

Lemma filter_absent (i : Z) (l : list Z) :
  i ∉ l -> filter (fun j => j <> i) l = l.
Proof.
  induction l as [|k l IH]; intros Hi; [reflexivity|].
  apply not_elem_of_cons in Hi as [Hne Hi].
  rewrite filter_cons_True by congruence. now rewrite IH.
Qed.

Lemma remove_first_ints_absent (i : Z) (l : list Z) :
  i ∉ l -> Py.remove_first (JInt i) (map JInt l) = None.
Proof.
  intros Hi. apply remove_first_unknown. rewrite known_ints.
  now apply bool_decide_eq_false.
Qed.

Lemma without_id_filter (i : Z) (l : list Z) :
  NoDup l ->
  without_id (JInt i) (map JInt l) = map JInt (filter (fun j => j <> i) l).
Proof.
  unfold without_id. induction l as [|k l IH]; intros Hl; [reflexivity|].
  apply NoDup_cons in Hl as [Hk Hl]. cbn [map Py.remove_first Py.eq].
  destruct (Z.eqb_spec k i) as [->|Hne].
  - rewrite filter_cons_False by tauto. now rewrite filter_absent.
  - rewrite filter_cons_True by assumption. cbn [map]. specialize (IH Hl).
    destruct (Py.remove_first (JInt i) (map JInt l)); now rewrite IH.
Qed.

Lemma remove_first_last (x : json) (l : list json) :
  Py.eq x x = true -> existsb (fun y => Py.eq y x) l = false ->
  Py.remove_first x (l ++ [x]) = Some l.
Proof.
  intros Hx. induction l as [|y l IH]; cbn.
  - now rewrite Hx.
  - destruct (Py.eq y x); cbn; [discriminate|]. intros Hl. now rewrite IH.
Qed.

(** X1.  On a ledger whose tracked ids are distinct integers,
    [remove_booking_id i] leaves the other ids in their order, [i] is no
    longer among them, and the stored token is as before. *)
Theorem remove_booking_id_forgets_the_id (s : state)
        (d : list (string * json)) (l : list Z) (i : Z) :
  ledger s = Some d -> tracked d = Some (map JInt l) -> NoDup l ->
  exists s',
    SelfHealing.remove_booking_id (JInt i) s = (Ok tt, s')
    /\ SelfHealing.get_booking_ids s'
       = (Ok (JList (map JInt (filter (fun j => j <> i) l))), s')
    /\ Py.contains (JInt i) (JList (map JInt (filter (fun j => j <> i) l)))
       = Ok false
    /\ fst (SelfHealing.get_token s') = fst (SelfHealing.get_token s).
Proof.
  intros Hd Hl Hnd.
  destruct (remove_booking_id_ledger s d _ (JInt i) Hd Hl)
    as (s' & d' & Hrun & Hd' & Hl' & Htok & _).
  rewrite without_id_filter in Hl' by assumption.
  exists s'. split; [exact Hrun|].
  split; [now apply (get_booking_ids_ledger s' d')|]. split.
  - cbn. f_equal. rewrite known_ints. apply bool_decide_eq_false.
    rewrite list_elem_of_filter. tauto.
  - rewrite (get_token_ledger s' d' Hd'), (get_token_ledger s d Hd).
    cbn. now rewrite Htok.
Qed.

(** X2.  Storing an integer id that is not tracked puts it last, and
    removing it again gives back the tracked ids as they were. *)
Theorem store_then_remove_restores_the_ids (s : state)
        (d : list (string * json)) (l : list json) (i : Z) :
  ledger s = Some d -> tracked d = Some l ->
  Py.contains (JInt i) (JList l) = Ok false ->
  exists s1 s2,
    SelfHealing.store_booking_id (JInt i) s = (Ok tt, s1)
    /\ SelfHealing.get_booking_ids s1 = (Ok (JList (l ++ [JInt i])), s1)
    /\ SelfHealing.remove_booking_id (JInt i) s1 = (Ok tt, s2)
    /\ SelfHealing.get_booking_ids s2 = (Ok (JList l), s2).
Proof.
  intros Hd Hl [= Hi].
  assert (Py.eq (JInt i) (JInt i) = true) as Hii by apply Z.eqb_refl.
  destruct (store_booking_id_ledger s d l (JInt i) Hd Hl)
    as (d1 & Hrun1 & Hl1 & _).
  unfold with_id in Hl1. rewrite Hi in Hl1.
  set (s1 := mkState (self s) (Holds (JDict d1)) (wire s) (clock (ticked s)))
    in *.
  destruct (remove_booking_id_ledger s1 d1 _ (JInt i) eq_refl Hl1)
    as (s2 & d2 & Hrun2 & Hd2 & Hl2 & _).
  unfold without_id in Hl2. rewrite remove_first_last in Hl2 by assumption.
  exists s1, s2. split; [exact Hrun1|].
  split; [now apply (get_booking_ids_ledger s1 d1)|].
  split; [exact Hrun2|]. now apply (get_booking_ids_ledger s2 d2).
Qed.

Lemma store_ids_in_order (l : list Z) :
  forall (s : state) (d : list (string * json)) (l0 : list Z),
    ledger s = Some d -> tracked d = Some (map JInt l0) -> NoDup (l0 ++ l) ->
    exists s',
      run_ops (map StoreId l) s = (Ok tt, s')
      /\ SelfHealing.get_booking_ids s' = (Ok (JList (map JInt (l0 ++ l))), s').
Proof.
  induction l as [|i l IH]; intros s d l0 Hd Hl Hnd.
  - exists s. rewrite app_nil_r. split; [reflexivity|].
    now apply (get_booking_ids_ledger s d).
  - destruct (store_booking_id_ledger s d _ (JInt i) Hd Hl)
      as (d1 & Hrun & Hl1 & _).
    assert (i ∉ l0) as Hi.
    { apply NoDup_app in Hnd as (_ & Hdisj & _). intros Hin.
      apply (Hdisj i Hin). apply elem_of_cons. now left. }
    unfold with_id in Hl1. rewrite known_ints in Hl1.
    rewrite bool_decide_eq_false_2 in Hl1 by assumption.
    change [JInt i] with (map JInt [i]) in Hl1. rewrite <- map_app in Hl1.
    destruct (IH (mkState (self s) (Holds (JDict d1)) (wire s)
                    (clock (ticked s))) d1 (l0 ++ [i]) eq_refl Hl1)
      as (s' & Hrest & Hget).
    { now rewrite <- app_assoc. }
    exists s'. unfold run_ops in *. cbn [map for_each run_op].
    rewrite (bind_ok _ _ _ _ _ Hrun), Hrest. split; [reflexivity|].
    now rewrite <- app_assoc in Hget.
Qed.

(** X3.  Distinct ids stored one after the other into the empty ledger
    are tracked in the order they were stored. *)
Theorem ids_are_kept_in_the_order_stored (s : state) (l : list Z) :
  ledger s = Some [] -> NoDup l ->
  exists s',
    run_ops (map StoreId l) s = (Ok tt, s')
    /\ SelfHealing.get_booking_ids s' = (Ok (JList (map JInt l)), s').
Proof.
  intros Hd Hnd. now apply (store_ids_in_order l s [] []).
Qed.

(** X4.  On a ledger, [store_token] leaves the tracked ids alone, and
    [store_booking_id] and [remove_booking_id] leave the stored token
    alone. *)
Theorem token_and_ids_do_not_interfere (s : state) (d : list (string * json))
        (l : list json) (tok x : json) :
  ledger s = Some d -> tracked d = Some l ->
  (exists s1,
      SelfHealing.store_token tok s = (Ok tt, s1)
      /\ SelfHealing.get_booking_ids s1 = (Ok (JList l), s1))
  /\ (exists s2,
         SelfHealing.store_booking_id x s = (Ok tt, s2)
         /\ fst (SelfHealing.get_token s2) = fst (SelfHealing.get_token s))
  /\ (exists s3,
         SelfHealing.remove_booking_id x s = (Ok tt, s3)
         /\ fst (SelfHealing.get_token s3) = fst (SelfHealing.get_token s)).
Proof.
  intros Hd Hl. rewrite (get_token_ledger s d Hd). split; [|split].
  - eexists. split; [exact (store_token_ledger s d tok Hd)|].
    eapply get_booking_ids_ledger; [reflexivity|].
    now rewrite !tracked_update by discriminate.
  - destruct (store_booking_id_ledger s d l x Hd Hl) as (d' & Hrun & _ & Htok).
    eexists. split; [exact Hrun|].
    erewrite get_token_ledger by reflexivity. cbn. now rewrite Htok.
  - destruct (remove_booking_id_ledger s d l x Hd Hl)
      as (s' & d' & Hrun & Hd' & _ & Htok & _).
    exists s'. split; [exact Hrun|].
    rewrite (get_token_ledger s' d' Hd'). cbn. now rewrite Htok.
Qed.

(** X5.  While the bytes of the backing file are no text, every operation
    of the store raises [UnicodeDecodeError] and changes nothing; the full
    clear too, which therefore does not clear. *)
Theorem undecodable_file_fails_every_operation (s : state) (tok x : json) :
  disk s = Undecodable ->
  SelfHealing.store_token tok s = (Raise UnicodeDecodeError, s)
  /\ SelfHealing.get_token s = (Raise UnicodeDecodeError, s)
  /\ SelfHealing.store_booking_id x s = (Raise UnicodeDecodeError, s)
  /\ SelfHealing.get_booking_ids s = (Raise UnicodeDecodeError, s)
  /\ SelfHealing.remove_booking_id x s = (Raise UnicodeDecodeError, s)
  /\ SelfHealing.cleanup_test_data s = (Raise UnicodeDecodeError, s).
Proof.
  intros Hdisk.
  assert (SelfHealing._load_data s = (Raise UnicodeDecodeError, s)) as Hload.
  { unfold SelfHealing._load_data. now rewrite Hdisk. }
  unfold SelfHealing.store_token, SelfHealing.get_token,
    SelfHealing.store_booking_id, SelfHealing.get_booking_ids,
    SelfHealing.remove_booking_id, SelfHealing.cleanup_test_data.
  now rewrite !(bind_raise _ _ _ _ _ Hload).
Qed.

(** X6.  While the backing file holds a JSON document that is no object,
    [store_token] and [store_booking_id] raise [TypeError], [get_token]
    and [get_booking_ids] raise [AttributeError], and nothing changes. *)
Theorem non_object_file_fails_reads_and_writes (s : state) (v tok x : json) :
  disk s = Holds v -> (forall d, v <> JDict d) ->
  SelfHealing.store_token tok s = (Raise TypeError, s)
  /\ SelfHealing.store_booking_id x s = (Raise TypeError, s)
  /\ SelfHealing.get_token s = (Raise AttributeError, s)
  /\ SelfHealing.get_booking_ids s = (Raise AttributeError, s).
Proof.
  intros Hdisk Hv.
  assert (SelfHealing._load_data s = (Ok v, s)) as Hload.
  { unfold SelfHealing._load_data. now rewrite Hdisk. }
  unfold SelfHealing.store_token, SelfHealing.get_token,
    SelfHealing.store_booking_id, SelfHealing.get_booking_ids.
  rewrite !(bind_ok _ _ _ _ _ Hload). run.
  destruct v as [| | |t|l|d]; cbn; try (now repeat split).
  - destruct (Py.substring "booking_ids" t); now repeat split.
  - destruct (existsb _ l); now repeat split.
  - now destruct (Hv d).
Qed.

(** X7.  The store's [cleanup_test_data] overwrites the file with the
    empty ledger unless reading the file raises or the file holds [null],
    a boolean or a number, in which case it raises and the file stays. *)
Theorem full_clear_outcome (s : state) :
  SelfHealing.cleanup_test_data s =
  match disk s with
  | Undecodable => (Raise UnicodeDecodeError, s)
  | Holds JNull | Holds (JBool _) | Holds (JInt _) => (Raise TypeError, s)
  | _ => (Ok tt, set_disk (Holds (JDict [])) s)
  end.
Proof.
  unfold SelfHealing.cleanup_test_data, SelfHealing._load_data,
    SelfHealing._save_data. run.
  destruct (disk s) as [| | |[| | |t|l|d]]; reflexivity.
Qed.

End StoreMore.

(** * Further properties of the client *)

Section ClientMore.
Context `{Env}.

Lemma ensure_token_signed_in (s : state) (e : Z) :
  Py.truthy (token (self s)) = true -> token_expiry (self s) = Some e ->
  clock s 0%nat < e ->
  BookingAPIClient.ensure_token s = (Ok tt, ticked s).
Proof.
  intros Ht He Hnow. unfold BookingAPIClient.ensure_token.
  rewrite (bind_ok _ _ _ _ _ (token_valid_cached s e He Ht)).
  apply Z.ltb_lt in Hnow. now rewrite Hnow.
Qed.

(** X8.  With a valid token [delete_booking i] makes the DELETE call
    carrying that token and no other call.  A transport failure is raised
    and an answer other than 201 is returned with the store as it was;
    on 201 the id is removed from the tracked ids. *)
Theorem delete_booking_with_valid_token (s : state) (i e : Z) :
  Py.truthy (token (self s)) = true -> token_expiry (self s) = Some e ->
  clock s 0%nat < e ->
  let call := DeleteBooking (base_url (self s)) (JInt i) (token (self s)) in
  let sent := mkState (self s) (disk s) (wire s ++ [call]) (clock (ticked s)) in
  (forall x, service (wire s) call = Raise x ->
             BookingAPIClient.delete_booking (JInt i) s = (Raise x, sent))
  /\ (forall r, service (wire s) call = Ok r -> status_code r <> 201 ->
                BookingAPIClient.delete_booking (JInt i) s = (Ok r, sent))
  /\ (forall r d l,
         service (wire s) call = Ok r -> status_code r = 201 ->
         ledger s = Some d -> tracked d = Some (map JInt l) -> NoDup l ->
         exists s',
           BookingAPIClient.delete_booking (JInt i) s = (Ok r, s')
           /\ wire s' = wire s ++ [call] /\ self s' = self s
           /\ SelfHealing.get_booking_ids s'
              = (Ok (JList (map JInt (filter (fun j => j <> i) l))), s')).
Proof.
  intros Ht He Hnow call sent. unfold BookingAPIClient.delete_booking.
  rewrite (bind_ok _ _ _ _ _ (ensure_token_signed_in s e Ht He Hnow)).
  unfold BookingAPIClient.send. run. fold call. split; [|split].
  - intros x ->. reflexivity.
  - intros r -> H201. apply Z.eqb_neq in H201. now rewrite H201.
  - intros r d l -> H201 Hd Hl Hnd. apply Z.eqb_eq in H201. rewrite H201.
    destruct (remove_booking_id_ledger sent d _ (JInt i) Hd Hl)
      as (s' & d' & Hrun & Hd' & Hl' & _ & Hself & Hwire & _).
    fold sent. rewrite Hrun. exists s'. split; [reflexivity|].
    split; [exact Hwire|]. split; [exact Hself|].
    rewrite without_id_filter in Hl' by assumption.
    now apply (get_booking_ids_ledger s' d').
Qed.

(** X9.  With a valid token [update_booking] and
    [partial_update_booking] make the PUT, respectively the PATCH, call
    carrying that token, hand back what the service does with it, and
    leave the client and the backing file alone. *)
Theorem updates_with_valid_token (s : state) (booking_id fields : json)
        (e : Z) :
  Py.truthy (token (self s)) = true -> token_expiry (self s) = Some e ->
  clock s 0%nat < e ->
  let put := PutBooking (base_url (self s)) booking_id fields
               (token (self s)) in
  let patch := PatchBooking (base_url (self s)) booking_id fields
                 (token (self s)) in
  BookingAPIClient.update_booking booking_id fields s
  = (service (wire s) put,
     mkState (self s) (disk s) (wire s ++ [put]) (clock (ticked s)))
  /\ BookingAPIClient.partial_update_booking booking_id fields s
     = (service (wire s) patch,
        mkState (self s) (disk s) (wire s ++ [patch]) (clock (ticked s))).
Proof.
  intros Ht He Hnow put patch.
  unfold BookingAPIClient.update_booking,
    BookingAPIClient.partial_update_booking.
  rewrite !(bind_ok _ _ _ _ _ (ensure_token_signed_in s e Ht He Hnow)).
  split; reflexivity.
Qed.

(** X10.  On a client without an expiry, [update_booking] and
    [partial_update_booking] first authenticate.  If that call fails in
    transport the failure is raised and no update goes out; if it is
    answered with a status other than 200, the update goes out all the
    same, carrying the token the client had. *)
Theorem update_goes_out_after_failed_authentication (s : state)
        (booking_id fields : json) :
  token_expiry (self s) = None ->
  let auth := PostAuth (base_url (self s)) (username (self s))
                (password (self s)) in
  let put := PutBooking (base_url (self s)) booking_id fields
               (token (self s)) in
  let patch := PatchBooking (base_url (self s)) booking_id fields
                 (token (self s)) in
  let stopped := mkState (self s) (disk s) (wire s ++ [auth]) (clock s) in
  (forall x, service (wire s) auth = Raise x ->
             BookingAPIClient.update_booking booking_id fields s
             = (Raise x, stopped)
             /\ BookingAPIClient.partial_update_booking booking_id fields s
                = (Raise x, stopped))
  /\ (forall r, service (wire s) auth = Ok r -> status_code r <> 200 ->
                BookingAPIClient.update_booking booking_id fields s
                = (service (wire s ++ [auth]) put,
                   mkState (self s) (disk s) (wire s ++ [auth; put]) (clock s))
                /\ BookingAPIClient.partial_update_booking booking_id fields s
                   = (service (wire s ++ [auth]) patch,
                      mkState (self s) (disk s) (wire s ++ [auth; patch])
                        (clock s))).
Proof.
  intros He auth put patch stopped.
  unfold BookingAPIClient.update_booking,
    BookingAPIClient.partial_update_booking, BookingAPIClient.ensure_token.
  rewrite !bind_bind, !(bind_ok _ _ _ _ _ (token_valid_no_expiry s He)).
  unfold BookingAPIClient.authenticate.
  rewrite !bind_bind, !(bind_ok _ _ s s (self s)) by reflexivity.
  rewrite !bind_bind, !(bind_ok _ _ _ _ _ (token_valid_no_expiry s He)).
  unfold BookingAPIClient.send. run. fold auth. split.
  - intros x ->. split; reflexivity.
  - intros r -> H200. apply Z.eqb_neq in H200. rewrite H200. cbn.
    rewrite <- !app_assoc. split; reflexivity.
Qed.

(** Where a call to the service is made, it is the authentication call and
    nothing follows it on the wire. *)
Lemma authenticate_remote_wire (s s0 : state) :
  BookingAPIClient._is_token_valid s = (Ok false, s0) ->
  exists r s',
    BookingAPIClient.authenticate s = (r, s')
    /\ wire s' = wire s ++ [PostAuth (base_url (self s)) (username (self s))
                                     (password (self s))].
Proof.
  intros Hv.
  destruct (token_valid_frame s s0 false Hv) as (Hself & Hdisk & Hwire).
  unfold BookingAPIClient.authenticate.
  rewrite (bind_ok _ _ s s (self s)) by reflexivity.
  rewrite (bind_ok _ _ _ _ _ Hv).
  unfold BookingAPIClient.send, BookingAPIClient.Response_json. run.
  rewrite Hwire, Hself.
  destruct (service _ _) as [r|e]; [|now eauto].
  destruct (status_code r =? 200); [|now eauto].
  destruct (json_loads (content r)) as [body|]; [|now eauto].
  destruct (Py.get body "token" JNull) as [tok|]; [|now eauto].
  destruct (Py.truthy tok); [|now eauto].
  cbn. match goal with
       | |- context [SelfHealing.store_token tok ?s1] =>
           pose proof (store_token_wire tok s1) as Hw;
           destruct (SelfHealing.store_token tok s1) as [[[]|e] s2]
       end; cbn in Hw; eauto.
Qed.

(** X11.  After an authentication that the service answered with status
    200 and a non-empty token without a surrogate code point, a second
    [authenticate] within the hour is answered from the cache: it returns
    status 200 with the bytes [{"token":"], the bytes of that token and
    ["}] for a body, and the wire holds the one authentication call. *)
Theorem second_authentication_is_served_from_the_cache (s : state)
        (d body : list (string * json)) (r : Response) (t : string) :
  token_expiry (self s) = None ->
  service (wire s)
    (PostAuth (base_url (self s)) (username (self s)) (password (self s)))
  = Ok r ->
  status_code r = 200 ->
  json_loads (content r) = Some (JDict body) ->
  Py.lookup "token" body = Some (JStr t) -> t <> "" ->
  Py.has_surrogate t = false ->
  ledger s = Some d ->
  clock s 2%nat < clock s 0%nat + one_hour ->
  exists s1 r2 s2,
    BookingAPIClient.authenticate s = (Ok r, s1)
    /\ BookingAPIClient.authenticate s1 = (Ok r2, s2)
    /\ status_code r2 = 200
    /\ content r2
       = String.append
           (String "{"%char
              (String "034"%char
                 (String "t"%char
                    (String "o"%char
                       (String "k"%char
                          (String "e"%char
                             (String "n"%char
                                (String "034"%char
                                   (String ":"%char
                                      (String "034"%char EmptyString))))))))))
           (String.append t (String "034"%char (String "}"%char EmptyString)))
    /\ wire s2 = wire s ++ [PostAuth (base_url (self s)) (username (self s))
                                     (password (self s))].
Proof.
  intros He Hr H200 Hbody Htok Hne Hsur Hd Hnow.
  assert (Py.truthy (JStr t) = true) as Htruthy.
  { cbn. now destruct (String.eqb_spec t ""). }
  unfold BookingAPIClient.authenticate at 1.
  rewrite (bind_ok _ _ s s (self s)) by reflexivity.
  rewrite (bind_ok _ _ _ _ _ (token_valid_no_expiry s He)).
  unfold BookingAPIClient.send, BookingAPIClient.Response_json. run.
  apply Z.eqb_eq in H200. rewrite Hr, H200, Hbody. cbn.
  rewrite Htok, Htruthy. cbn.
  erewrite (store_token_ledger _ d) by exact Hd. cbn.
  eexists _, _, _. split; [reflexivity|].
  unfold BookingAPIClient.authenticate.
  match goal with
  | |- context [(gets self ≫= _) ?s1] =>
      rewrite (bind_ok _ _ s1 s1 (self s1)) by reflexivity;
      rewrite (bind_ok _ _ _ _ _
                 (token_valid_cached s1 (clock s 0%nat + one_hour)
                    eq_refl Htruthy))
  end.
  cbn. apply Z.ltb_lt in Hnow. rewrite Hnow. cbn. rewrite Hsur. cbn.
  split; [reflexivity|]. split; [reflexivity|].
  split; [apply token_body_bytes|reflexivity].
Qed.

(** X12.  A token is not reused at or after its expiry: [authenticate]
    then puts the authentication call on the wire. *)
Theorem expired_token_is_not_reused (s : state) (e : Z) :
  token_expiry (self s) = Some e -> e <= clock s 0%nat ->
  exists r s',
    BookingAPIClient.authenticate s = (r, s')
    /\ wire s' = wire s ++ [PostAuth (base_url (self s)) (username (self s))
                                     (password (self s))].
Proof.
  intros He Hnow.
  assert (exists s0, BookingAPIClient._is_token_valid s = (Ok false, s0))
    as [s0 Hv].
  { unfold BookingAPIClient._is_token_valid. run. rewrite He.
    destruct (Py.truthy (token (self s))); [|now eauto].
    apply Z.ltb_ge in Hnow. rewrite Hnow. now eauto. }
  now apply (authenticate_remote_wire s s0).
Qed.

(** X13.  When [authenticate] goes to the service and the transport
    fails, or the answer of status 200 has a body that is no JSON or no
    JSON object, the exception is raised with the client and the backing
    file as they were. *)
Theorem authenticate_failures_change_nothing (s s0 : state) :
  BookingAPIClient._is_token_valid s = (Ok false, s0) ->
  let auth := PostAuth (base_url (self s)) (username (self s))
                (password (self s)) in
  let sent := mkState (self s) (disk s) (wire s ++ [auth]) (clock s0) in
  (forall x, service (wire s) auth = Raise x ->
             BookingAPIClient.authenticate s = (Raise x, sent))
  /\ (forall r, service (wire s) auth = Ok r -> status_code r = 200 ->
                json_loads (content r) = None ->
                BookingAPIClient.authenticate s = (Raise JSONDecodeError, sent))
  /\ (forall r v, service (wire s) auth = Ok r -> status_code r = 200 ->
                  json_loads (content r) = Some v -> (forall d, v <> JDict d) ->
                  BookingAPIClient.authenticate s = (Raise AttributeError, sent)).
Proof.
  intros Hv auth sent.
  destruct (token_valid_frame s s0 false Hv) as (Hself & Hdisk & Hwire).
  unfold BookingAPIClient.authenticate.
  rewrite (bind_ok _ _ s s (self s)) by reflexivity.
  rewrite (bind_ok _ _ _ _ _ Hv).
  unfold BookingAPIClient.send, BookingAPIClient.Response_json. run.
  rewrite Hwire, Hself, Hdisk. fold auth. fold sent. split; [|split].
  - intros x ->. reflexivity.
  - intros r -> H200 Hbody. apply Z.eqb_eq in H200.
    now rewrite H200, Hbody.
  - intros r v -> H200 Hbody Hv'. apply Z.eqb_eq in H200.
    rewrite H200, Hbody. destruct v; try reflexivity. now destruct (Hv' d).
Qed.

(** X14.  When the bytes of the backing file are no text, a booking that
    the service created is not tracked: [create_booking] raises
    [UnicodeDecodeError] after the call went out, and the file stays. *)
Theorem created_booking_is_lost_when_the_store_fails (s : state)
        (booking_data v : json) (r : Response) (body : list (string * json)) :
  disk s = Undecodable ->
  service (wire s) (PostBooking (base_url (self s)) booking_data) = Ok r ->
  status_code r = 200 ->
  json_loads (content r) = Some (JDict body) ->
  Py.lookup "bookingid" body = Some v -> Py.truthy v = true ->
  BookingAPIClient.create_booking booking_data s
  = (Raise UnicodeDecodeError,
     mkState (self s) Undecodable
       (wire s ++ [PostBooking (base_url (self s)) booking_data]) (clock s)).
Proof.
  intros Hdisk Hr H200 Hbody Hid Htruthy.
  unfold BookingAPIClient.create_booking.
  rewrite (bind_ok _ _ s s (self s)) by reflexivity.
  unfold BookingAPIClient.send, BookingAPIClient.Response_json. run.
  apply Z.eqb_eq in H200. rewrite Hr, H200, Hbody. cbn.
  rewrite Hid, Htruthy. unfold SelfHealing.store_booking_id,
    SelfHealing._load_data. run. now rewrite Hdisk.
Qed.

(** X15.  [create_booking] leaves the client and the backing file alone
    when the transport fails (the failure is raised), when the answer of
    status 200 is an object without ["bookingid"] (the answer is
    returned), and when its body is no JSON ([JSONDecodeError]). *)
Theorem create_booking_without_an_id_stores_nothing (s : state)
        (booking_data : json) :
  let post := PostBooking (base_url (self s)) booking_data in
  let sent := mkState (self s) (disk s) (wire s ++ [post]) (clock s) in
  (forall x, service (wire s) post = Raise x ->
             BookingAPIClient.create_booking booking_data s = (Raise x, sent))
  /\ (forall r body, service (wire s) post = Ok r -> status_code r = 200 ->
                     json_loads (content r) = Some (JDict body) ->
                     Py.lookup "bookingid" body = None ->
                     BookingAPIClient.create_booking booking_data s
                     = (Ok r, sent))
  /\ (forall r, service (wire s) post = Ok r -> status_code r = 200 ->
                json_loads (content r) = None ->
                BookingAPIClient.create_booking booking_data s
                = (Raise JSONDecodeError, sent)).
Proof.
  intros post sent. unfold BookingAPIClient.create_booking.
  rewrite (bind_ok _ _ s s (self s)) by reflexivity.
  unfold BookingAPIClient.send, BookingAPIClient.Response_json. run.
  fold post. fold sent. split; [|split].
  - intros x ->. reflexivity.
  - intros r body -> H200 Hbody Hid. apply Z.eqb_eq in H200.
    rewrite H200, Hbody. cbn. now rewrite Hid.
  - intros r -> H200 Hbody. apply Z.eqb_eq in H200.
    now rewrite H200, Hbody.
Qed.

(** X16.  With a token that stays valid, creating a booking whose id is
    not tracked and deleting it again, the service answering 200 and 201,
    tracks the id in between and leaves the tracked ids as they were. *)
Theorem create_then_delete_restores_the_ids (s : state)
        (d body : list (string * json)) (l : list json) (booking_data : json)
        (i e : Z) (r1 r2 : Response) :
  Py.truthy (token (self s)) = true -> token_expiry (self s) = Some e ->
  clock s 1%nat < e ->
  ledger s = Some d -> tracked d = Some l ->
  Py.contains (JInt i) (JList l) = Ok false ->
  let post := PostBooking (base_url (self s)) booking_data in
  let delete := DeleteBooking (base_url (self s)) (JInt i) (token (self s)) in
  service (wire s) post = Ok r1 -> status_code r1 = 200 ->
  json_loads (content r1) = Some (JDict body) ->
  Py.lookup "bookingid" body = Some (JInt i) -> i <> 0 ->
  service (wire s ++ [post]) delete = Ok r2 -> status_code r2 = 201 ->
  exists s1 s2,
    BookingAPIClient.create_booking booking_data s = (Ok r1, s1)
    /\ SelfHealing.get_booking_ids s1 = (Ok (JList (l ++ [JInt i])), s1)
    /\ BookingAPIClient.delete_booking (JInt i) s1 = (Ok r2, s2)
    /\ SelfHealing.get_booking_ids s2 = (Ok (JList l), s2)
    /\ wire s2 = wire s ++ [post; delete].
Proof.
  intros Ht He Hnow Hd Hl [= Hi] post delete Hr1 H200 Hbody Hid Hne Hr2 H201.
  assert (Py.eq (JInt i) (JInt i) = true) as Hii by apply Z.eqb_refl.
  unfold BookingAPIClient.create_booking.
  rewrite (bind_ok _ _ s s (self s)) by reflexivity.
  unfold BookingAPIClient.send, BookingAPIClient.Response_json. run.
  fold post. apply Z.eqb_eq in H200. rewrite Hr1, H200, Hbody. cbn.
  rewrite Hid. cbn. destruct (Z.eqb_spec i 0) as [|_]; [contradiction|]. cbn.
  destruct (store_booking_id_ledger
              (mkState (self s) (disk s) (wire s ++ [post]) (clock s))
              d l (JInt i) Hd Hl) as (d1 & Hrun1 & Hl1 & _).
  unfold with_id in Hl1. rewrite Hi in Hl1. rewrite Hrun1. cbn.
  set (s1 := mkState (self s) (Holds (JDict d1)) (wire s ++ [post])
               (fun n => clock s (S n))).
  exists s1. unfold BookingAPIClient.delete_booking.
  rewrite (bind_ok _ _ _ _ _ (ensure_token_signed_in s1 e Ht He Hnow)).
  unfold BookingAPIClient.send. run. subst s1. cbn. fold post. fold delete.
  apply Z.eqb_eq in H201. rewrite Hr2, H201.
  destruct (remove_booking_id_ledger
              (mkState (self s) (Holds (JDict d1))
                 ((wire s ++ [post]) ++ [delete])
                 (fun n => clock s (S (S n))))
              d1 _ (JInt i) eq_refl Hl1)
    as (s2 & d2 & Hrun2 & Hd2 & Hl2 & _ & _ & Hw2 & _).
  unfold without_id in Hl2. rewrite remove_first_last in Hl2 by assumption.
  rewrite Hrun2. exists s2. split; [reflexivity|].
  split; [now apply (get_booking_ids_ledger _ d1)|].
  split; [reflexivity|].
  split; [now apply (get_booking_ids_ledger s2 d2)|].
  rewrite Hw2. cbn. now rewrite <- app_assoc.
Qed.

(** X17.  The client's [cleanup_test_data] raises before anything goes on
    the wire, and clears nothing, when the backing file is no ledger. *)
Theorem cleanup_stops_when_the_store_cannot_be_read (s : state) :
  ledger s = None ->
  exists x, BookingAPIClient.cleanup_test_data s = (Raise x, s).
Proof.
  unfold ledger, BookingAPIClient.cleanup_test_data,
    SelfHealing.get_booking_ids, SelfHealing._load_data. run.
  destruct (disk s) as [| | |[]]; try discriminate; intros _; cbn; eauto.
Qed.


(** X19.  Constructing a client raises when the backing file is no
    ledger; the file and the wire are untouched. *)
Theorem construction_fails_when_the_store_cannot_be_read (s : state)
        (user pass : option string) :
  ledger s = None ->
  exists x s',
    BookingAPIClient.__init__ user pass s = (Raise x, s')
    /\ disk s' = disk s /\ wire s' = wire s.
Proof.
  unfold ledger, BookingAPIClient.__init__,
    BookingAPIClient._attempt_self_healing, SelfHealing.get_token,
    SelfHealing._load_data. run.
  destruct (disk s) as [| | |[]]; try discriminate; intros _; cbn; eauto.
Qed.

(** X20.  Non-empty credentials given to the constructor are the
    client's, whatever the environment and the backing file hold. *)
Theorem explicit_credentials_win (s : state) (u p : string) :
  u <> "" -> p <> "" ->
  let c := self (snd (BookingAPIClient.__init__ (Some u) (Some p) s)) in
  username c = u /\ password c = p.
Proof.
  intros Hu Hp. unfold BookingAPIClient.__init__.
  set (c0 := mkClient _ _ _ JNull None).
  destruct (self_healing_effect (set_self c0 s)) as (r & t & Hrun & _).
  unfold mbind, M_bind, modify. rewrite Hrun. subst c0. cbn.
  destruct (String.eqb_spec u ""), (String.eqb_spec p ""); tauto.
Qed.

(** X21.  Constructing a client raises [TypeError] when the ledger's
    ["booking_ids"] is a non-zero number: the count for the log line
    cannot be taken. *)
Theorem construction_fails_on_a_numeric_id_field (s : state)
        (d : list (string * json)) (n : Z) (user pass : option string) :
  ledger s = Some d -> Py.lookup "booking_ids" d = Some (JInt n) -> n <> 0 ->
  exists s',
    BookingAPIClient.__init__ user pass s = (Raise TypeError, s')
    /\ disk s' = disk s /\ wire s' = wire s.
Proof.
  intros Hd Hids Hn. unfold BookingAPIClient.__init__.
  set (c := mkClient _ _ _ JNull None).
  rewrite (bind_ok _ _ s (set_self c s) tt) by reflexivity.
  unfold BookingAPIClient._attempt_self_healing.
  rewrite (bind_ok _ _ _ _ _ (get_token_ledger (set_self c s) d Hd)).
  assert (forall c', SelfHealing.get_booking_ids (set_self c' s)
                     = (Ok (JInt n), set_self c' s)) as Hget.
  { intros c'. unfold SelfHealing.get_booking_ids.
    rewrite (bind_ok _ _ _ _ _ (load_ledger (set_self c' s) d Hd)).
    unfold lift. cbn. now rewrite Hids. }
  assert (Py.truthy (JInt n) = true) as Htruthy.
  { cbn. now destruct (Z.eqb_spec n 0). }
  set (t := match Py.lookup "token" d with Some v => v | None => JNull end).
  destruct (Py.truthy t).
  - rewrite (bind_ok _ _ (set_self c s)
               (set_self (set_token t c) s) tt) by reflexivity.
    rewrite (bind_ok _ _ _ _ _ (Hget _)), Htruthy. cbn. eauto.
  - rewrite (bind_ok _ _ (set_self c s) (set_self c s) tt) by reflexivity.
    rewrite (bind_ok _ _ _ _ _ (Hget _)), Htruthy. cbn. eauto.
Qed.

(** X22.  A cached token that is truthy but no string cannot be reused:
    within its validity [authenticate] raises [AttributeError] and makes
    no call. *)
Theorem cached_token_that_is_no_string_cannot_be_reused (s : state) (e : Z) :
  Py.truthy (token (self s)) = true ->
  (forall t, token (self s) <> JStr t) ->
  token_expiry (self s) = Some e -> clock s 0%nat < e ->
  BookingAPIClient.authenticate s = (Raise AttributeError, ticked s).
Proof.
  intros Ht Hstr He Hnow. unfold BookingAPIClient.authenticate.
  rewrite (bind_ok _ _ s s (self s)) by reflexivity.
  rewrite (bind_ok _ _ _ _ _ (token_valid_cached s e He Ht)).
  apply Z.ltb_lt in Hnow. rewrite Hnow. run.
  destruct (token (self s)) as [| | |t| |]; try reflexivity.
  now destruct (Hstr t).
Qed.

End ClientMore.

(** * Properties of the data generators *)

Section Generators.
Context `{Calendar}.

(** Settles the lookup of a key in dicts with literal keys. *)
Ltac by_key :=
  cbn [Py.lookup Py.update PyMore.without_key];
  repeat match goal with
         | |- context [String.eqb ?k ?x] =>
             destruct (String.eqb_spec k x) as [->|?]; cbn; try congruence
         end;
  try reflexivity.

Lemma valid_booking_data_value (g : sources) :
  DataGenerator.generate_valid_booking_data g =
  (Ok (JDict [("firstname", JStr "John");
              ("lastname", JStr "Doe");
              ("totalprice", JInt (draws g 0%nat));
              ("depositpaid", JBool true);
              ("bookingdates",
               JDict [("checkin",
                       JStr (strftime "%Y-%m-%d" (instants g 0%nat + days 7)));
                      ("checkout",
                       JStr (strftime "%Y-%m-%d"
                               (instants g 0%nat + days 7 + days 3)))]);
              ("additionalneeds", JStr "Breakfast")]),
   mkSources (fun n => instants g (S n)) (fun n => draws g (S n))).
Proof. reflexivity. Qed.

(** Runs a variant on the value of the valid data. *)
Ltac variant :=
  unfold DataGenerator.generate_booking_with_missing_firstname,
    DataGenerator.generate_booking_with_missing_lastname,
    DataGenerator.generate_booking_with_missing_dates,
    DataGenerator.generate_booking_with_invalid_dates,
    DataGenerator.generate_booking_with_long_names,
    DataGenerator.generate_booking_with_max_price,
    DataGenerator.generate_booking_with_min_price,
    DataGenerator.generate_booking_with_special_chars,
    mbind, Gen_bind, gen_lift;
  rewrite valid_booking_data_value;
  cbn [PyMore.delitem Py.getitem Py.setitem Py.lookup Py.update
         PyMore.without_key String.eqb Ascii.eqb Bool.eqb].

(** X23.  The generators of bookings with a missing field never raise:
    each returns the valid booking data drawn from the same sources
    without the one key it names. *)
Theorem generators_of_missing_fields (g : sources) :
  exists d g',
    DataGenerator.generate_valid_booking_data g = (Ok (JDict d), g')
    /\ (exists d1,
           DataGenerator.generate_booking_with_missing_firstname g
           = (Ok (JDict d1), g')
           /\ forall k, Py.lookup k d1
                        = if String.eqb k "firstname" then None
                          else Py.lookup k d)
    /\ (exists d2,
           DataGenerator.generate_booking_with_missing_lastname g
           = (Ok (JDict d2), g')
           /\ forall k, Py.lookup k d2
                        = if String.eqb k "lastname" then None
                          else Py.lookup k d)
    /\ (exists d3,
           DataGenerator.generate_booking_with_missing_dates g
           = (Ok (JDict d3), g')
           /\ forall k, Py.lookup k d3
                        = if String.eqb k "bookingdates" then None
                          else Py.lookup k d).
Proof.
  eexists _, _. split; [apply valid_booking_data_value|].
  split; [|split]; (eexists; split; [variant; reflexivity|]);
    intros k; by_key.
Qed.

(** X24.  The generators that override fields never raise: each returns
    the valid booking data drawn from the same sources with only the
    named fields replaced (both dates by "invalid-date", names of 255
    characters, the special names, the prices 2147483647 and 0). *)
Theorem generators_of_overridden_fields (g : sources) :
  exists d g',
    DataGenerator.generate_valid_booking_data g = (Ok (JDict d), g')
    /\ (exists d1,
           DataGenerator.generate_booking_with_invalid_dates g
           = (Ok (JDict d1), g')
           /\ Py.lookup "bookingdates" d1
              = Some (JDict [("checkin", JStr "invalid-date");
                             ("checkout", JStr "invalid-date")])
           /\ forall k, k <> "bookingdates" ->
                        Py.lookup k d1 = Py.lookup k d)
    /\ (exists d2 a b,
           DataGenerator.generate_booking_with_long_names g
           = (Ok (JDict d2), g')
           /\ Py.lookup "firstname" d2 = Some (JStr a)
           /\ Py.lookup "lastname" d2 = Some (JStr b)
           /\ String.length a = 255%nat /\ String.length b = 255%nat
           /\ forall k, k <> "firstname" -> k <> "lastname" ->
                        Py.lookup k d2 = Py.lookup k d)
    /\ (exists d3,
           DataGenerator.generate_booking_with_special_chars g
           = (Ok (JDict d3), g')
           /\ Py.lookup "firstname" d3 = Some (JStr "!$@n")
           /\ Py.lookup "lastname" d3 = Some (JStr "$@rm@")
           /\ forall k, k <> "firstname" -> k <> "lastname" ->
                        Py.lookup k d3 = Py.lookup k d)
    /\ (exists d4,
           DataGenerator.generate_booking_with_max_price g
           = (Ok (JDict d4), g')
           /\ Py.lookup "totalprice" d4 = Some (JInt 2147483647)
           /\ forall k, k <> "totalprice" -> Py.lookup k d4 = Py.lookup k d)
    /\ (exists d5,
           DataGenerator.generate_booking_with_min_price g
           = (Ok (JDict d5), g')
           /\ Py.lookup "totalprice" d5 = Some (JInt 0)
           /\ forall k, k <> "totalprice" -> Py.lookup k d5 = Py.lookup k d).
Proof.
  eexists _, _. split; [apply valid_booking_data_value|].
  split; [|split; [|split; [|split]]].
  - eexists. split; [variant; reflexivity|]. split; [reflexivity|].
    intros k Hk. by_key.
  - eexists _, _, _. split; [variant; reflexivity|].
    split; [reflexivity|]. split; [reflexivity|].
    split; [reflexivity|]. split; [reflexivity|].
    intros k Hk Hk'. by_key.
  - eexists. split; [variant; reflexivity|].
    split; [reflexivity|]. split; [reflexivity|].
    intros k Hk Hk'. by_key.
  - eexists. split; [variant; reflexivity|]. split; [reflexivity|].
    intros k Hk. by_key.
  - eexists. split; [variant; reflexivity|]. split; [reflexivity|].
    intros k Hk. by_key.
Qed.

End Generators.

(** ** Further scenarios, run *)

Module More.

Lemma distinct_leftovers : NoDup [101; 102].
Proof. refine (bool_decide_unpack _ _). vm_compute. exact I. Qed.

Lemma remove_tracked_scenario :
  exists s',
    SelfHealing.remove_booking_id (JInt 101) Scenario.leftovers = (Ok tt, s')
    /\ SelfHealing.get_booking_ids s' = (Ok (JList [JInt 102]), s').
Proof.
  destruct (@remove_booking_id_forgets_the_id Scenario.leftovers _
              [101; 102] 101 eq_refl eq_refl distinct_leftovers)
    as (s' & Hrun & Hget & _).
  exists s'. split; [exact Hrun|exact Hget].
Defined.

Lemma store_then_remove_scenario :
  exists s1 s2,
    @SelfHealing.store_booking_id Scenario.env (JInt 55) Scenario.leftovers
    = (Ok tt, s1)
    /\ SelfHealing.get_booking_ids s1
       = (Ok (JList ([JInt 101; JInt 102] ++ [JInt 55])), s1)
    /\ SelfHealing.remove_booking_id (JInt 55) s1 = (Ok tt, s2)
    /\ SelfHealing.get_booking_ids s2
       = (Ok (JList [JInt 101; JInt 102]), s2).
Proof.
  apply (@store_then_remove_restores_the_ids Scenario.env Scenario.leftovers
           [("token", JStr "abc123");
            ("booking_ids", JList [JInt 101; JInt 102])]).
  - reflexivity.
  - reflexivity.
  - reflexivity.
Defined.

Lemma stored_order_scenario :
  exists s',
    @run_ops Scenario.env (map StoreId [3; 1; 2]) Scenario.fresh = (Ok tt, s')
    /\ SelfHealing.get_booking_ids s' = (Ok (JList (map JInt [3; 1; 2])), s').
Proof.
  apply (@ids_are_kept_in_the_order_stored Scenario.env Scenario.fresh).
  - reflexivity.
  - refine (bool_decide_unpack _ _). vm_compute. exact I.
Defined.

Lemma token_beside_ids_scenario :
  exists s1,
    @SelfHealing.store_token Scenario.env (JStr "xyz789") Scenario.leftovers
    = (Ok tt, s1)
    /\ SelfHealing.get_booking_ids s1
       = (Ok (JList [JInt 101; JInt 102]), s1).
Proof.
  exact (proj1 (@token_and_ids_do_not_interfere Scenario.env
                  Scenario.leftovers _ [JInt 101; JInt 102] (JStr "xyz789")
                  (JInt 7) eq_refl eq_refl)).
Defined.

Lemma undecodable_scenario :
  SelfHealing.cleanup_test_data Scenario.garbled
  = (Raise UnicodeDecodeError, Scenario.garbled).
Proof.
  exact (proj2 (proj2 (proj2 (proj2 (proj2
           (@undecodable_file_fails_every_operation Scenario.env
              Scenario.garbled JNull JNull eq_refl)))))).
Defined.

Lemma array_file_scenario :
  @SelfHealing.store_token Scenario.env (JStr "abc123") Cases.listed
  = (Raise TypeError, Cases.listed).
Proof.
  refine (proj1 (@non_object_file_fails_reads_and_writes Scenario.env
                   Cases.listed (JList []) (JStr "abc123") JNull eq_refl _)).
  intros d. discriminate.
Defined.

Lemma delete_tracked_scenario :
  exists s',
    @BookingAPIClient.delete_booking Scenario.env (JInt 101) Scenario.teardown
    = (Ok (mkResponse 201 "Created"), s')
    /\ SelfHealing.get_booking_ids s' = (Ok (JList [JInt 102]), s').
Proof.
  destruct (proj2 (proj2
              (@delete_booking_with_valid_token Scenario.env
                 Scenario.teardown 101 (12 * one_hour + 1800000000)
                 eq_refl eq_refl eq_refl))
              (mkResponse 201 "Created") _ [101; 102]
              eq_refl eq_refl eq_refl eq_refl distinct_leftovers)
    as (s' & Hrun & _ & _ & Hget).
  exists s'. split; [exact Hrun|exact Hget].
Defined.

Lemma update_scenario :
  fst (@BookingAPIClient.update_booking Scenario.env (JInt 101) JNull
         Scenario.signed_in)
  = Ok (mkResponse 404 "Not Found").
Proof.
  rewrite (proj1 (@updates_with_valid_token Scenario.env Scenario.signed_in
                    (JInt 101) JNull (12 * one_hour + 1800000000)
                    eq_refl eq_refl eq_refl)).
  reflexivity.
Defined.

Lemma update_after_refusal_scenario :
  wire (snd (@BookingAPIClient.update_booking Cases.env_locked (JInt 101)
               JNull Scenario.fresh))
  = [PostAuth Scenario.base "admin" "password123";
     PutBooking Scenario.base (JInt 101) JNull JNull].
Proof.
  rewrite (proj1 (proj2 (@update_goes_out_after_failed_authentication
                           Cases.env_locked Scenario.fresh (JInt 101) JNull
                           eq_refl)
                        (mkResponse 403 "Forbidden") eq_refl
                        ltac:(discriminate))).
  reflexivity.
Defined.

Lemma second_authentication_scenario :
  exists s1 r2 s2,
    @BookingAPIClient.authenticate Scenario.env Scenario.fresh
    = (Ok (mkResponse 200 (BookingAPIClient.token_body "abc123")), s1)
    /\ @BookingAPIClient.authenticate Scenario.env s1 = (Ok r2, s2)
    /\ status_code r2 = 200
    /\ content r2
       = String "{"%char
           (String "034"%char
              (String.append "token"
                 (String "034"%char
                    (String ":"%char
                       (String "034"%char
                          (String.append "abc123"
                             (String "034"%char "}")))))))
    /\ wire s2 = [] ++ [PostAuth Scenario.base "admin" "password123"].
Proof.
  apply (@second_authentication_is_served_from_the_cache Scenario.env
           Scenario.fresh [] [("token", JStr "abc123")]).
  - reflexivity.
  - reflexivity.
  - reflexivity.
  - vm_compute. reflexivity.
  - reflexivity.
  - discriminate.
  - reflexivity.
  - reflexivity.
  - vm_compute. reflexivity.
Defined.

Lemma lapsed_token_scenario :
  exists r s',
    @BookingAPIClient.authenticate Scenario.env Cases.lapsed = (r, s')
    /\ wire s' = [] ++ [PostAuth Scenario.base "admin" "password123"].
Proof.
  apply (@expired_token_is_not_reused Scenario.env Cases.lapsed
           (11 * one_hour)).
  - reflexivity.
  - vm_compute. discriminate.
Defined.

Lemma offline_authentication_scenario :
  @BookingAPIClient.authenticate Cases.env_offline Scenario.fresh
  = (Raise ConnectionError,
     mkState Scenario.admin Absent
       ([] ++ [PostAuth Scenario.base "admin" "password123"]) Scenario.noon).
Proof.
  exact (proj1 (@authenticate_failures_change_nothing Cases.env_offline
                  Scenario.fresh Scenario.fresh eq_refl)
               ConnectionError eq_refl).
Defined.

Lemma lost_booking_scenario :
  @BookingAPIClient.create_booking Scenario.env JNull Scenario.garbled
  = (Raise UnicodeDecodeError,
     mkState Scenario.admin Undecodable
       ([] ++ [PostBooking Scenario.base JNull]) Scenario.noon).
Proof.
  apply (@created_booking_is_lost_when_the_store_fails Scenario.env
           Scenario.garbled JNull (JInt 55)
           (mkResponse 200 (Scenario.member "bookingid" "55"))
           [("bookingid", JInt 55)]).
  - reflexivity.
  - reflexivity.
  - reflexivity.
  - vm_compute. reflexivity.
  - reflexivity.
  - reflexivity.
Defined.

Lemma offline_create_scenario :
  @BookingAPIClient.create_booking Cases.env_offline JNull Scenario.leftovers
  = (Raise ConnectionError,
     mkState Scenario.admin (disk Scenario.leftovers)
       ([] ++ [PostBooking Scenario.base JNull]) Scenario.noon).
Proof.
  exact (proj1 (@create_booking_without_an_id_stores_nothing
                  Cases.env_offline Scenario.leftovers JNull)
               ConnectionError eq_refl).
Defined.

Lemma create_then_delete_scenario :
  exists s1 s2,
    @BookingAPIClient.create_booking Cases.env_obliging JNull
      Scenario.teardown
    = (Ok (mkResponse 200 (Scenario.member "bookingid" "55")), s1)
    /\ SelfHealing.get_booking_ids s1
       = (Ok (JList ([JInt 101; JInt 102] ++ [JInt 55])), s1)
    /\ @BookingAPIClient.delete_booking Cases.env_obliging (JInt 55) s1
       = (Ok (mkResponse 201 "Created"), s2)
    /\ SelfHealing.get_booking_ids s2 = (Ok (JList [JInt 101; JInt 102]), s2)
    /\ wire s2
       = [] ++ [PostBooking Scenario.base JNull;
                DeleteBooking Scenario.base (JInt 55) (JStr "abc123")].
Proof.
  apply (@create_then_delete_restores_the_ids Cases.env_obliging
           Scenario.teardown
           [("token", JStr "abc123");
            ("booking_ids", JList [JInt 101; JInt 102])]
           [("bookingid", JInt 55)] [JInt 101; JInt 102] JNull 55
           (12 * one_hour + 1800000000)).
  - reflexivity.
  - reflexivity.
  - vm_compute. reflexivity.
  - reflexivity.
  - reflexivity.
  - reflexivity.
  - reflexivity.
  - reflexivity.
  - vm_compute. reflexivity.
  - reflexivity.
  - discriminate.
  - reflexivity.
  - reflexivity.
Defined.

Lemma cleanup_on_garbled_file_scenario :
  exists x,
    @BookingAPIClient.cleanup_test_data Scenario.env Scenario.garbled
    = (Raise x, Scenario.garbled).
Proof.
  apply (@cleanup_stops_when_the_store_cannot_be_read Scenario.env
           Scenario.garbled).
  reflexivity.
Defined.


Lemma construction_on_garbled_file_scenario :
  exists x s',
    @BookingAPIClient.__init__ Scenario.env None None Scenario.garbled
    = (Raise x, s')
    /\ disk s' = Undecodable /\ wire s' = [].
Proof.
  apply (@construction_fails_when_the_store_cannot_be_read Scenario.env
           Scenario.garbled None None).
  reflexivity.
Defined.

Lemma explicit_credentials_scenario :
  let c := self (snd (@BookingAPIClient.__init__ Scenario.env (Some "alice")
                        (Some "secret") Scenario.leftovers)) in
  username c = "alice" /\ password c = "secret".
Proof.
  apply (@explicit_credentials_win Scenario.env Scenario.leftovers
           "alice" "secret"); discriminate.
Defined.

Lemma numeric_id_field_scenario :
  exists s',
    @BookingAPIClient.__init__ Scenario.env None None Cases.numbered
    = (Raise TypeError, s')
    /\ disk s' = disk Cases.numbered /\ wire s' = [].
Proof.
  apply (@construction_fails_on_a_numeric_id_field Scenario.env
           Cases.numbered [("booking_ids", JInt 5)] 5 None None).
  - reflexivity.
  - reflexivity.
  - discriminate.
Defined.

Lemma numeric_token_scenario :
  @BookingAPIClient.authenticate Scenario.env Cases.numeric_token
  = (Raise AttributeError, ticked Cases.numeric_token).
Proof.
  apply (@cached_token_that_is_no_string_cannot_be_reused Scenario.env
           Cases.numeric_token (12 * one_hour + 1800000000)).
  - reflexivity.
  - intros t. discriminate.
  - reflexivity.
  - vm_compute. reflexivity.
Defined.

End More.
